(** * Earthquake feed: distance calculator and feed fetcher of [main.py]

    A shallow embedding of [calculate_distance], [get_earthquake] and
    [get_earthquakes_api].

    Modelling conventions.
    - Values decoded from JSON are Python objects; they are the inductive
      type [pyval].  A decoded object (dict) is an association list whose
      lookup takes the first binding of a key.
    - Python floats are [pyfloat]: a finite float is idealised as a real
      number ([R]), so that arithmetic on finite floats is exact, without
      rounding or overflow; NaN and the two infinities, which the JSON
      decoder also yields, are kept and follow the IEEE 754 rules.  There
      are no signed zeros.  [math.sqrt], [math.sin] and [math.cos] keep
      their domain checks, and the conversion of an int to a float keeps its
      range check.  A property proved on this model is a property of the
      code where it does not depend on the rounding of finite floats;
      where it does, it is stated as one of exact arithmetic.
    - Where rounding decides the outcome, [calculate_distance] is also given
      on IEEE 754 binary64 floats, in [Binary64], with the C library's sine,
      cosine, power and arc tangent as a parameter.
    - Python exceptions are values of [exn]; code that can raise returns a
      [result].  [try ... except Exception] is [try_except_Exception], which
      lets the exceptions that are not subclasses of [Exception] through.
    - The environment of one call (clock, local time zone, remote feed,
      and the interpreter's choices where the language leaves them open) is
      a [World]. *)

From Stdlib Require Import Reals Lra Lia ZArith List String Ascii Bool.
From Stdlib Require Import Zfloor Machin Sorted Permutation.
From Stdlib Require PrimFloat.
Import ListNotations.

Open Scope R_scope.

(** ** Exceptions and results *)

(** The exceptions the code can meet.  All are subclasses of [Exception]
    except [KeyboardInterrupt] and [SystemExit]. *)
Inductive exn : Type :=
| ConnectionError
| Timeout
| RequestException
| HTTPError (status : Z)
| JSONDecodeError
| KeyError
| IndexError
| TypeError
| AttributeError
| ValueError
| OverflowError
| OSError
| KeyboardInterrupt
| SystemExit.

Definition is_Exception (e : exn) : bool :=
  match e with
  | KeyboardInterrupt | SystemExit => false
  | _ => true
  end.

Inductive result (A : Type) : Type :=
| Ok (a : A)
| Raise (e : exn).
Arguments Ok {A} a.
Arguments Raise {A} e.

Definition bind {A B : Type} (m : result A) (k : A -> result B) : result B :=
  match m with
  | Ok a => k a
  | Raise e => Raise e
  end.

Notation "x <- m ;; k" := (bind m (fun x => k))
  (at level 61, m at next level, right associativity).

(** ** Python floats *)

(** A float: a real number, NaN, or an infinity ([negative] for minus
    infinity). *)
Inductive pyfloat : Type :=
| Finite (r : R)
| NaN
| Infinity (negative : bool).

Bind Scope R_scope with pyfloat.
Coercion Finite : R >-> pyfloat.

Definition Req_bool (x y : R) : bool := if Req_dec_T x y then true else false.
Definition Rlt_bool (x y : R) : bool := if Rlt_dec x y then true else false.
Definition Rle_bool (x y : R) : bool := if Rle_dec x y then true else false.

(** [x < y], [x <= y] and [x == y] on floats: every comparison with a NaN
    is false. *)
Definition float_ltb (x y : pyfloat) : bool :=
  match x, y with
  | Finite a, Finite b => Rlt_bool a b
  | NaN, _ | _, NaN => false
  | Infinity s, Finite _ => s
  | Finite _, Infinity t => negb t
  | Infinity s, Infinity t => s && negb t
  end.

Definition float_leb (x y : pyfloat) : bool :=
  match x, y with
  | Finite a, Finite b => Rle_bool a b
  | NaN, _ | _, NaN => false
  | Infinity s, Finite _ => s
  | Finite _, Infinity t => negb t
  | Infinity s, Infinity t => s || negb t
  end.

Definition float_eqb (x y : pyfloat) : bool :=
  match x, y with
  | Finite a, Finite b => Req_bool a b
  | Infinity s, Infinity t => Bool.eqb s t
  | _, _ => false
  end.

(** [x + y]: infinities of opposite signs add up to NaN. *)
Definition fadd (x y : pyfloat) : pyfloat :=
  match x, y with
  | Finite a, Finite b => Finite (a + b)
  | NaN, _ | _, NaN => NaN
  | Infinity s, Finite _ => Infinity s
  | Finite _, Infinity t => Infinity t
  | Infinity s, Infinity t => if Bool.eqb s t then Infinity s else NaN
  end.

(** [x - y]: infinities of one sign subtract to NaN. *)
Definition fsub (x y : pyfloat) : pyfloat :=
  match x, y with
  | Finite a, Finite b => Finite (a - b)
  | NaN, _ | _, NaN => NaN
  | Infinity s, Finite _ => Infinity s
  | Finite _, Infinity t => Infinity (negb t)
  | Infinity s, Infinity t => if Bool.eqb s t then NaN else Infinity s
  end.

(** [x * y]: an infinity times zero is NaN. *)
Definition fmul (x y : pyfloat) : pyfloat :=
  match x, y with
  | Finite a, Finite b => Finite (a * b)
  | NaN, _ | _, NaN => NaN
  | Infinity s, Finite b =>
      if Req_dec_T b 0 then NaN else Infinity (xorb s (Rlt_bool b 0))
  | Finite a, Infinity t =>
      if Req_dec_T a 0 then NaN else Infinity (xorb (Rlt_bool a 0) t)
  | Infinity s, Infinity t => Infinity (xorb s t)
  end.

(** [x / n] for a literal [n > 0]. *)
Definition fdiv (x : pyfloat) (n : R) : pyfloat :=
  match x with
  | Finite r => Finite (r / n)
  | NaN => NaN
  | Infinity s => Infinity s
  end.

(** [x ** n] for a literal [n > 0]. *)
Definition float_pow (x : pyfloat) (n : nat) : pyfloat :=
  match x with
  | Finite r => Finite (r ^ n)
  | NaN => NaN
  | Infinity s => Infinity (s && Nat.odd n)
  end.

(** ** Python values *)

#[local] Set Warnings "-register-all".

Inductive pyval : Type :=
| PNone
| PBool (b : bool)
| PInt (z : Z)
| PFloat (f : pyfloat)
| PStr (s : string)
| PList (l : list pyval)
| PDict (d : list (string * pyval)).

Fixpoint dict_lookup (k : string) (d : list (string * pyval)) : option pyval :=
  match d with
  | [] => None
  | (k', v) :: d' => if String.eqb k k' then Some v else dict_lookup k d'
  end.

(** The least magnitude of an int that has no float: 2^1024 - 2^970, half
    an ulp above the largest double, rounds out of range. *)
Definition float_overflow : Z := (2 ^ 1024 - 2 ^ 970)%Z.
Arguments float_overflow : simpl never.

(** [float(x)] as [math.radians] applies it: [OverflowError] for an int
    too large for a float, [TypeError] for what is not a number. *)
Definition py_float (x : pyval) : result pyfloat :=
  match x with
  | PBool b => Ok (Finite (if b then 1 else 0))
  | PInt z =>
      if (Z.abs z <? float_overflow)%Z then Ok (Finite (IZR z))
      else Raise OverflowError
  | PFloat f => Ok f
  | _ => Raise TypeError
  end.

(** ** The math module *)

(** [math.radians]: the argument times pi/180. *)
Definition radians (x : pyval) : result pyfloat :=
  f <- py_float x ;; Ok (fmul f (Finite (PI / 180))).

(** [math.sin] and [math.cos]: [ValueError] (math domain error) at an
    infinity; a NaN goes through. *)
Definition py_sin (x : pyfloat) : result pyfloat :=
  match x with
  | Finite r => Ok (Finite (sin r))
  | NaN => Ok NaN
  | Infinity _ => Raise ValueError
  end.

Definition py_cos (x : pyfloat) : result pyfloat :=
  match x with
  | Finite r => Ok (Finite (cos r))
  | NaN => Ok NaN
  | Infinity _ => Raise ValueError
  end.

(** [math.sqrt]: [ValueError] (math domain error) on a negative argument;
    a NaN goes through. *)
Definition py_sqrt (x : pyfloat) : result pyfloat :=
  match x with
  | Finite r => if Rle_dec 0 r then Ok (Finite (sqrt r)) else Raise ValueError
  | NaN => Ok NaN
  | Infinity false => Ok (Infinity false)
  | Infinity true => Raise ValueError
  end.

(** The angle of the point (x, y), in (-pi, pi]. *)
Definition atan2 (y x : R) : R :=
  if Rlt_dec 0 x then atan (y / x)
  else if Rlt_dec x 0 then
         (if Rle_dec 0 y then atan (y / x) + PI else atan (y / x) - PI)
  else if Rlt_dec 0 y then PI / 2
  else if Rlt_dec y 0 then - (PI / 2)
  else 0.

(** [math.atan2 y x]. *)
Definition py_atan2 (y x : pyfloat) : pyfloat :=
  match y, x with
  | Finite y, Finite x => Finite (atan2 y x)
  | NaN, _ | _, NaN => NaN
  | Infinity s, Finite _ => Finite (if s then - (PI / 2) else PI / 2)
  | Finite _, Infinity false => Finite 0
  | Finite y, Infinity true => Finite (if Rlt_dec y 0 then - PI else PI)
  | Infinity s, Infinity false => Finite (if s then - (PI / 4) else PI / 4)
  | Infinity s, Infinity true =>
      Finite (if s then - (3 * PI / 4) else 3 * PI / 4)
  end.

(** ** Configuration constants *)

(** San Francisco coordinates and the alert radius in kilometers. *)
Definition SF_LAT : R := 37.7749.
Definition SF_LON : R := -122.4194.
Definition RADIUS_KM : R := 200.

(** ** Distance calculator *)

Definition calculate_distance (lat1 lon1 lat2 lon2 : pyval) : result pyfloat :=
  let R := Finite 6371 in
  lat1 <- radians lat1 ;;
  lon1 <- radians lon1 ;;
  lat2 <- radians lat2 ;;
  lon2 <- radians lon2 ;;
  let dlat := fsub lat2 lat1 in
  let dlon := fsub lon2 lon1 in
  sin_dlat <- py_sin (fdiv dlat 2) ;;
  cos_lat1 <- py_cos lat1 ;;
  cos_lat2 <- py_cos lat2 ;;
  sin_dlon <- py_sin (fdiv dlon 2) ;;
  let a := fadd (float_pow sin_dlat 2)
                (fmul (fmul cos_lat1 cos_lat2) (float_pow sin_dlon 2)) in
  sa <- py_sqrt a ;;
  sb <- py_sqrt (fsub (Finite 1) a) ;;
  let c := fmul (Finite 2) (py_atan2 sa sb) in
  let distance := fmul R c in
  Ok distance.

(** The quantity under the square roots, on angles in radians. *)
Definition hav_a (phi1 lam1 phi2 lam2 : R) : R :=
  sin ((phi2 - phi1) / 2) ^ 2 + cos phi1 * cos phi2 * sin ((lam2 - lam1) / 2) ^ 2.

(** The haversine formula as the specification words it, on angles in
    degrees and with the Earth radius as a parameter. *)
Definition haversine (radius lat1 lon1 lat2 lon2 : R) : R :=
  let phi1 := lat1 * (PI / 180) in
  let lam1 := lon1 * (PI / 180) in
  let phi2 := lat2 * (PI / 180) in
  let lam2 := lon2 * (PI / 180) in
  let a := Rsqr (sin ((phi2 - phi1) / 2))
           + cos phi1 * cos phi2 * Rsqr (sin ((lam2 - lam1) / 2)) in
  let c := 2 * atan2 (sqrt a) (sqrt (1 - a)) in
  radius * c.

(** ** Operations on Python values *)

(** [o[k]] for a string key. *)
Definition py_getitem_str (o : pyval) (k : string) : result pyval :=
  match o with
  | PDict d =>
      match dict_lookup k d with
      | Some v => Ok v
      | None => Raise KeyError
      end
  | _ => Raise TypeError
  end.

(** [o[i]] for a literal index [i >= 0].  A string is indexed by
    character; a decoded dict has string keys only. *)
Definition py_getitem_int (o : pyval) (i : nat) : result pyval :=
  match o with
  | PList l =>
      match nth_error l i with
      | Some v => Ok v
      | None => Raise IndexError
      end
  | PStr s =>
      match String.get i s with
      | Some c => Ok (PStr (String c EmptyString))
      | None => Raise IndexError
      end
  | PDict _ => Raise KeyError
  | _ => Raise TypeError
  end.

(** [o.get(k, default)]; only a dict has the method. *)
Definition py_get (o : pyval) (k : string) (default : pyval) : result pyval :=
  match o with
  | PDict d =>
      Ok (match dict_lookup k d with
          | Some v => v
          | None => default
          end)
  | _ => Raise AttributeError
  end.

(** The items a [for] loop over [o] visits. *)
Definition py_iter (o : pyval) : result (list pyval) :=
  match o with
  | PList l => Ok l
  | PDict d => Ok (map (fun kv => PStr (fst kv)) d)
  | PStr s => Ok (map (fun c => PStr (String c EmptyString)) (list_ascii_of_string s))
  | _ => Raise TypeError
  end.

(** [z / n] on ints, for a literal [n > 0]: the quotient as a float,
    [OverflowError] when it is too large for one. *)
Definition int_truediv (z n : Z) : result pyfloat :=
  if (Z.abs z <? n * float_overflow)%Z then Ok (Finite (IZR z / IZR n))
  else Raise OverflowError.

(** [x / n] for an integer literal [n > 0]: true division. *)
Definition py_truediv (x : pyval) (n : Z) : result pyfloat :=
  match x with
  | PBool b => int_truediv (if b then 1 else 0) n
  | PInt z => int_truediv z n
  | PFloat f => Ok (fdiv f (IZR n))
  | _ => Raise TypeError
  end.

(** Truth value of an object ([if x]). *)
Definition py_truthy (x : pyval) : bool :=
  match x with
  | PNone => false
  | PBool b => b
  | PInt z => negb (Z.eqb z 0)
  | PFloat f => negb (float_eqb f (Finite 0))
  | PStr s => negb (String.eqb s EmptyString)
  | PList l => match l with [] => false | _ => true end
  | PDict d => match d with [] => false | _ => true end
  end.

(** The value of a number (bool, int or float), as the comparisons take
    it: an int is compared by its exact value. *)
Definition num_value (x : pyval) : option pyfloat :=
  match x with
  | PBool b => Some (Finite (if b then 1 else 0))
  | PInt z => Some (Finite (IZR z))
  | PFloat f => Some f
  | _ => None
  end.

(** Whether two floats are equal as items of a container.  Every NaN
    that the JSON decoder yields is one and the same object, and a
    container comparison takes an object as equal to itself. *)
Definition float_same (x y : pyfloat) : bool :=
  match x, y with
  | NaN, NaN => true
  | _, _ => float_eqb x y
  end.

(** [a == b] between items of two containers. *)
Fixpoint py_eq (a b : pyval) {struct a} : bool :=
  match a with
  | PNone => match b with PNone => true | _ => false end
  | PBool _ | PInt _ | PFloat _ =>
      match num_value a, num_value b with
      | Some x, Some y => float_same x y
      | _, _ => false
      end
  | PStr s => match b with PStr t => String.eqb s t | _ => false end
  | PList l =>
      match b with
      | PList m =>
          (fix eq_list (l m : list pyval) {struct l} : bool :=
             match l, m with
             | [], [] => true
             | x :: l', y :: m' => py_eq x y && eq_list l' m'
             | _, _ => false
             end) l m
      | _ => false
      end
  | PDict d =>
      match b with
      | PDict e =>
          Nat.eqb (List.length d) (List.length e)
          && (fix all_in (d : list (string * pyval)) : bool :=
                match d with
                | [] => true
                | (k, v) :: d' =>
                    match dict_lookup k e with
                    | Some v' => py_eq v v'
                    | None => false
                    end && all_in d'
                end) d
      | _ => false
      end
  end.

(** [a < b]: numbers by value, strings and lists lexicographically,
    [TypeError] for everything else. *)
Fixpoint py_lt (a b : pyval) {struct a} : result bool :=
  match a with
  | PBool _ | PInt _ | PFloat _ =>
      match num_value a, num_value b with
      | Some x, Some y => Ok (float_ltb x y)
      | _, _ => Raise TypeError
      end
  | PStr s => match b with PStr t => Ok (String.ltb s t) | _ => Raise TypeError end
  | PList l =>
      match b with
      | PList m =>
          (fix lt_list (l m : list pyval) {struct l} : result bool :=
             match l, m with
             | [], [] => Ok false
             | [], _ :: _ => Ok true
             | _ :: _, [] => Ok false
             | x :: l', y :: m' => if py_eq x y then lt_list l' m' else py_lt x y
             end) l m
      | _ => Raise TypeError
      end
  | PNone | PDict _ => Raise TypeError
  end.

(** ** Rounding *)

(** The integer nearest to [x], ties to the even one. *)
Definition round_half_even (x : R) : Z :=
  let n := Zfloor x in
  let f := x - IZR n in
  if Rlt_dec f (1 / 2) then n
  else if Rlt_dec (1 / 2) f then (n + 1)%Z
  else if Z.even n then n else (n + 1)%Z.

(** [round(x, 1)] on a finite float: the nearest multiple of one tenth,
    ties to the even one.  (A binary64 float holds the double nearest to
    that tenth; the idealisation takes the tenth itself.) *)
Definition round1 (x : R) : R := IZR (round_half_even (x * 10)) / 10.

(** [round(x, 1)] on a float: NaN and the infinities round to themselves. *)
Definition float_round1 (x : pyfloat) : pyfloat :=
  match x with
  | Finite r => Finite (round1 r)
  | NaN => NaN
  | Infinity s => Infinity s
  end.

(** [round(x, 1)] on an object: an int (or bool) comes back as the same
    int, a float is rounded to one decimal place. *)
Definition py_round1 (x : pyval) : result pyval :=
  match x with
  | PBool b => Ok (PInt (if b then 1 else 0))
  | PInt z => Ok (PInt z)
  | PFloat f => Ok (PFloat (float_round1 f))
  | _ => Raise TypeError
  end.

(** ** Dates and times *)

(** A naive [datetime], to the second. *)
Record datetime : Type := {
  year : Z; month : Z; day : Z; hour : Z; minute : Z; second : Z
}.

(** The civil date of a day number counted from 1970-01-01 (proleptic
    Gregorian calendar). *)
Definition civil_from_days (days : Z) : Z * Z * Z :=
  let z := (days + 719468)%Z in
  let era := (z / 146097)%Z in
  let doe := (z - era * 146097)%Z in
  let yoe := ((doe - doe / 1460 + doe / 36524 - doe / 146096) / 365)%Z in
  let y := (yoe + era * 400)%Z in
  let doy := (doe - (365 * yoe + yoe / 4 - yoe / 100))%Z in
  let mp := ((5 * doy + 2) / 153)%Z in
  let d := (doy - (153 * mp + 2) / 5 + 1)%Z in
  let m := (if (mp <? 10)%Z then mp + 3 else mp - 9)%Z in
  ((if (m <=? 2)%Z then y + 1 else y)%Z, m, d).

(** The wall-clock reading that is [secs] seconds after 1970-01-01 00:00:00. *)
Definition datetime_of_seconds (secs : Z) : datetime :=
  let days := (secs / 86400)%Z in
  let rem := (secs mod 86400)%Z in
  let '(y, m, d) := civil_from_days days in
  {| year := y; month := m; day := d;
     hour := (rem / 3600)%Z; minute := (rem mod 3600 / 60)%Z; second := (rem mod 60)%Z |}.

Definition digit (n : Z) : ascii := ascii_of_nat (48 + Z.to_nat (n mod 10)).

Definition pad2 (n : Z) : string :=
  String (digit (n / 10)) (String (digit n) EmptyString).

Definition pad4 (n : Z) : string :=
  String (digit (n / 1000)) (String (digit (n / 100)) (pad2 n)).

(** [strftime('%Y-%m-%d %H:%M:%S UTC')]; the year is written with four
    digits. *)
Definition strftime_space_UTC (dt : datetime) : string :=
  pad4 (year dt) ++ "-" ++ pad2 (month dt) ++ "-" ++ pad2 (day dt) ++ " "
  ++ pad2 (hour dt) ++ ":" ++ pad2 (minute dt) ++ ":" ++ pad2 (second dt) ++ " UTC".

(** [strftime('%Y-%m-%dT%H:%M:%S')]. *)
Definition strftime_T (dt : datetime) : string :=
  pad4 (year dt) ++ "-" ++ pad2 (month dt) ++ "-" ++ pad2 (day dt) ++ "T"
  ++ pad2 (hour dt) ++ ":" ++ pad2 (minute dt) ++ ":" ++ pad2 (second dt).

(** ** The environment of a call *)

Inductive param : Type :=
| ParamStr (s : string)
| ParamNum (r : R).

Record Request : Type := {
  url : string;
  params : list (string * param);
  timeout : Z
}.

(** What the feed answered: a status code and, when the body is JSON,
    the decoded value. *)
Record Response : Type := {
  status_code : Z;
  json_body : option pyval
}.

Record World : Type := {
  (** successive readings of the UTC clock, in seconds since the epoch *)
  utcnow : nat -> Z;
  (** offset of local time from UTC, in seconds, at a UTC instant *)
  utcoffset : Z -> Z;
  (** [requests.get]: a response, or the exception it raises *)
  requests_get : Request -> result Response;
  (** where the interpreter's [list.sort] puts an item of the given key
      among the items already placed, of the given keys, when the keys are
      not totally ordered (see [list_sort_reverse]) *)
  sort_position : list pyval -> pyval -> nat
}.

(** [response.raise_for_status()]: [HTTPError] for 4xx and 5xx. *)
Definition raise_for_status (response : Response) : result unit :=
  if ((400 <=? status_code response) && (status_code response <? 600))%Z
  then Raise (HTTPError (status_code response))
  else Ok tt.

(** [response.json()]. *)
Definition response_json (response : Response) : result pyval :=
  match json_body response with
  | Some v => Ok v
  | None => Raise JSONDecodeError
  end.

(** The wall-clock reading [offset] seconds ahead of the UTC instant
    [secs], as the platform (64-bit [time_t], C library) and the
    [datetime] constructor accept it: [OverflowError] for an instant
    outside [time_t], [OSError] where the C library cannot break the
    instant down (its year field is a C int counted from 1900), and
    [ValueError] for a year outside 1..9999. *)
Definition wall_clock (secs offset : Z) : result datetime :=
  if (2 ^ 63 <? Z.abs secs)%Z then Raise OverflowError
  else
    let dt := datetime_of_seconds (secs + offset) in
    if ((year dt - 1900 <? - 2 ^ 31) || (2 ^ 31 <=? year dt - 1900))%Z
    then Raise OSError
    else if ((1 <=? year dt) && (year dt <=? 9999))%Z then Ok dt
    else Raise ValueError.

(** The whole seconds of the timestamp [t], which is first rounded to the
    microsecond. *)
Definition timestamp_seconds (t : R) : Z :=
  (round_half_even (t * 1000000) / 1000000)%Z.

(** [datetime.fromtimestamp(t)]: the LOCAL wall-clock time of the instant
    [t]; [ValueError] for a NaN and [OverflowError] for an infinity.  To
    tell a repeated hour, the function also takes the local reading of the
    instant one day earlier, which must have a year of its own. *)
Definition fromtimestamp (w : World) (t : pyfloat) : result datetime :=
  match t with
  | Finite t =>
      let secs := timestamp_seconds t in
      dt <- wall_clock secs (utcoffset w secs) ;;
      _ <- wall_clock (secs - 86400) (utcoffset w (secs - 86400)) ;;
      Ok dt
  | NaN => Raise ValueError
  | Infinity _ => Raise OverflowError
  end.

(** [datetime.utcfromtimestamp(t)], the UTC reading of the same instant. *)
Definition utcfromtimestamp (t : pyfloat) : result datetime :=
  match t with
  | Finite t => wall_clock (timestamp_seconds t) 0
  | NaN => Raise ValueError
  | Infinity _ => Raise OverflowError
  end.

(** ** Sorting *)

(** Whether [a < b] and [b < a] both have an answer. *)
Definition comparable (a b : pyval) : bool :=
  match py_lt a b, py_lt b a with
  | Ok _, Ok _ => true
  | _, _ => false
  end.

Fixpoint all_comparable (keys : list pyval) : bool :=
  match keys with
  | [] => true
  | k :: keys' => forallb (comparable k) keys' && all_comparable keys'
  end.

Definition py_ltb (a b : pyval) : bool :=
  match py_lt a b with
  | Ok true => true
  | _ => false
  end.

(** [x] enters a descending list behind the items that are not below it. *)
Fixpoint insert_desc {A : Type} (key : A -> pyval) (x : A) (l : list A) : list A :=
  match l with
  | [] => [x]
  | y :: l' => if py_ltb (key x) (key y) then y :: insert_desc key x l' else x :: l
  end.

(** Whether a key is, or holds, a NaN. *)
Fixpoint has_nan (x : pyval) : bool :=
  match x with
  | PFloat NaN => true
  | PList l =>
      (fix any (l : list pyval) : bool :=
         match l with
         | [] => false
         | y :: l' => has_nan y || any l'
         end) l
  | _ => false
  end.

(** No item is followed by one of a greater key. *)
Fixpoint no_ascent {A : Type} (key : A -> pyval) (l : list A) : bool :=
  match l with
  | [] => true
  | x :: l' =>
      match l' with
      | [] => true
      | y :: _ => negb (py_ltb (key x) (key y)) && no_ascent key l'
      end
  end.

(** [x] enters [l] at position [n] (at the end when [l] is shorter). *)
Fixpoint insert_at {A : Type} (n : nat) (x : A) (l : list A) : list A :=
  match n, l with
  | S n', y :: l' => y :: insert_at n' x l'
  | _, _ => x :: l
  end.

(** [l.sort(key=key, reverse=True)]; [TypeError] when two keys cannot be
    compared.
    - When the keys are totally ordered (no NaN among them) the result is
      the stable descending sort: items with equal keys keep their order.
    - With a NaN among the keys the comparisons are not an order.  The
      sort first looks for a run: a list in which no item is followed by
      one of a greater key is one descending run and is left as it is.
      Otherwise the outcome depends on the merge strategy of the
      interpreter's sort: the result is a rearrangement, each item placed
      where [position] says, given the keys only.
    The model is exact when the keys are numbers or strings; for
    list-valued keys it raises whenever some pair is incomparable, also
    where the library would not happen to compare that pair. *)
Definition list_sort_reverse {A : Type} (position : list pyval -> pyval -> nat)
    (key : A -> pyval) (l : list A) : result (list A) :=
  if all_comparable (map key l) then
    if existsb has_nan (map key l) then
      if no_ascent key l then Ok l
      else Ok (fold_right
                 (fun x placed => insert_at (position (map key placed) (key x)) x placed)
                 [] l)
    else Ok (fold_right (insert_desc key) [] l)
  else Raise TypeError.

(** ** Earthquake feed fetcher *)

Record EarthquakeInfo : Type := {
  magnitude : pyval;
  place : pyval;
  time : string;
  distance_km : pyfloat;
  depth_km : pyval;
  info_url : pyval;
  alert : pyval;
  felt : pyval;
  tsunami : pyval
}.

(** The sort key [lambda x: x['magnitude'] if x['magnitude'] else 0]. *)
Definition sort_key (x : EarthquakeInfo) : pyval :=
  if py_truthy (magnitude x) then magnitude x else PInt 0.

Definition base_url : string := "https://earthquake.usgs.gov/fdsnws/event/1/query".

(** The query of the last 24 hours around San Francisco. *)
Definition feed_request (w : World) : Request :=
  let end_time := utcnow w 0 in
  let start_time := (end_time - 86400)%Z in
  {| url := base_url;
     params :=
       [ ("format", ParamStr "geojson");
         ("starttime", ParamStr (strftime_T (datetime_of_seconds start_time)));
         ("endtime", ParamStr (strftime_T (datetime_of_seconds end_time)));
         ("minlatitude", ParamNum (SF_LAT - 2));
         ("maxlatitude", ParamNum (SF_LAT + 2));
         ("minlongitude", ParamNum (SF_LON - 2));
         ("maxlongitude", ParamNum (SF_LON + 2));
         ("minmagnitude", ParamNum 2) ]%string;
     timeout := 10 |}.

(** One turn of the loop over the features: [nearby_earthquakes] before
    and after. *)
Definition loop_body (w : World) (feature : pyval)
    (nearby_earthquakes : list EarthquakeInfo) : result (list EarthquakeInfo) :=
  geometry <- py_getitem_str feature "geometry" ;;
  coords <- py_getitem_str geometry "coordinates" ;;
  lon <- py_getitem_int coords 0 ;;
  lat <- py_getitem_int coords 1 ;;
  distance <- calculate_distance (PFloat SF_LAT) (PFloat SF_LON) lat lon ;;
  if float_leb distance RADIUS_KM then
    properties <- py_getitem_str feature "properties" ;;
    mag <- py_get properties "mag" PNone ;;
    place_ <- py_get properties "place" PNone ;;
    time_ms <- py_get properties "time" PNone ;;
    timestamp <- py_truediv time_ms 1000 ;;
    dt <- fromtimestamp w timestamp ;;
    depth <- py_getitem_int coords 2 ;;
    depth_rounded <- py_round1 depth ;;
    url_ <- py_get properties "url" PNone ;;
    alert_ <- py_get properties "alert" PNone ;;
    felt_ <- py_get properties "felt" PNone ;;
    tsunami_ <- py_get properties "tsunami" PNone ;;
    let earthquake_info :=
      {| magnitude := mag;
         place := place_;
         time := strftime_space_UTC dt;
         distance_km := float_round1 distance;
         depth_km := depth_rounded;
         info_url := url_;
         alert := alert_;
         felt := felt_;
         tsunami := tsunami_ |} in
    Ok (nearby_earthquakes ++ [earthquake_info])
  else Ok nearby_earthquakes.

Fixpoint for_features (w : World) (features : list pyval)
    (nearby_earthquakes : list EarthquakeInfo) : result (list EarthquakeInfo) :=
  match features with
  | [] => Ok nearby_earthquakes
  | feature :: rest =>
      nearby_earthquakes' <- loop_body w feature nearby_earthquakes ;;
      for_features w rest nearby_earthquakes'
  end.

(** The body of the [try] block. *)
Definition get_earthquake_try (w : World) : result (list EarthquakeInfo) :=
  response <- requests_get w (feed_request w) ;;
  _ <- raise_for_status response ;;
  data <- response_json response ;;
  features <- py_get data "features" (PList []) ;;
  items <- py_iter features ;;
  nearby_earthquakes <- for_features w items [] ;;
  list_sort_reverse (sort_position w) sort_key nearby_earthquakes.

(** A line on standard output:
    [print(f"Error fetching earthquake data: {e}")]. *)
Inductive stdout_line : Type :=
| ErrorFetching (e : exn).

(** [try: body  except Exception as e: handler e]: what is returned or
    raised, and what is printed. *)
Definition try_except_Exception {A : Type} (body : result A)
    (handler : exn -> A * list stdout_line) : result A * list stdout_line :=
  match body with
  | Ok a => (Ok a, [])
  | Raise e =>
      if is_Exception e
      then (Ok (fst (handler e)), snd (handler e))
      else (Raise e, [])
  end.

Definition get_earthquake (w : World)
  : result (list EarthquakeInfo) * list stdout_line :=
  try_except_Exception (get_earthquake_try w)
    (fun e => ([], [ErrorFetching e])).

(** ** The JSON endpoint *)

(** The response of [/api/earthquakes]: [jsonify] answers with status 200. *)
Record ApiResponse : Type := {
  http_status : Z;
  count : nat;
  earthquakes : list EarthquakeInfo;
  last_updated : string
}.

Definition get_earthquakes_api (w : World)
  : result ApiResponse * list stdout_line :=
  let '(returned, printed) := get_earthquake w in
  (earthquakes_ <- returned ;;
   Ok {| http_status := 200;
         count := List.length earthquakes_;
         earthquakes := earthquakes_;
         last_updated := strftime_space_UTC (datetime_of_seconds (utcnow w 1)) |},
   printed).

(** ** The distance calculator in binary64 arithmetic

    The same function on IEEE 754 double-precision floats, as CPython
    evaluates it.  Addition, subtraction, multiplication, division and the
    square root are the correctly rounded operations; the sine, cosine,
    power and arc tangent come from the C library, a parameter. *)
Module Binary64.
Import PrimFloat.
Local Open Scope float_scope.
#[local] Set Warnings "-inexact-float".

Record libm : Type := {
  c_sin : float -> float;
  c_cos : float -> float;
  c_pow : float -> float -> float;
  c_atan2 : float -> float -> float
}.

(** [math.radians]: the argument times the double nearest to pi/180. *)
Definition radians (x : float) : float := x * 0.017453292519943295.

(** [math.sqrt]: [ValueError] (math domain error) on a negative argument;
    a NaN goes through. *)
Definition py_sqrt (x : float) : result float :=
  if x <? 0 then Raise ValueError else Ok (sqrt x).

(** [math.sin] and [math.cos]: [ValueError] (math domain error) at an
    infinity; a NaN goes through. *)
Definition py_sin (m : libm) (x : float) : result float :=
  if is_infinity x then Raise ValueError else Ok (c_sin m x).

Definition py_cos (m : libm) (x : float) : result float :=
  if is_infinity x then Raise ValueError else Ok (c_cos m x).

Definition calculate_distance (m : libm) (lat1 lon1 lat2 lon2 : float)
  : result float :=
  let R := 6371 in
  let lat1 := radians lat1 in
  let lon1 := radians lon1 in
  let lat2 := radians lat2 in
  let lon2 := radians lon2 in
  let dlat := lat2 - lat1 in
  let dlon := lon2 - lon1 in
  sin_dlat <- py_sin m (dlat / 2) ;;
  cos_lat1 <- py_cos m lat1 ;;
  cos_lat2 <- py_cos m lat2 ;;
  sin_dlon <- py_sin m (dlon / 2) ;;
  let a := c_pow m sin_dlat 2 + cos_lat1 * cos_lat2 * c_pow m sin_dlon 2 in
  sa <- py_sqrt a ;;
  sb <- py_sqrt (1 - a) ;;
  let c := 2 * c_atan2 m sa sb in
  let distance := R * c in
  Ok distance.

(** The haversine formula as the specification words it, evaluated in
    binary64: a value for every input, with no error condition (the
    square root of a negative number is a NaN). *)
Definition haversine (m : libm) (radius lat1 lon1 lat2 lon2 : float) : float :=
  let phi1 := radians lat1 in
  let lam1 := radians lon1 in
  let phi2 := radians lat2 in
  let lam2 := radians lon2 in
  let sin2 := fun x => c_pow m (c_sin m x) 2 in
  let a := sin2 ((phi2 - phi1) / 2)
           + c_cos m phi1 * c_cos m phi2 * sin2 ((lam2 - lam1) / 2) in
  let c := 2 * c_atan2 m (sqrt a) (sqrt (1 - a)) in
  radius * c.

(** A C library tabulated at the arguments the fixtures visit, with the
    correctly rounded values of the functions there. *)
Definition tabulated_libm : libm :=
  {| c_sin := fun x =>
       if x =? -0.13962634015954636 then -0.13917310096006544
       else if x =? 1.5707963267948966 then 1
       else if x =? -0.0324866860319965 then -0.03248097200792211
       else if x =? 0.036439856787763514 then 0.03643179279926197
       else 0;
     c_cos := fun x =>
       if abs x =? 0.13962634015954636 then 0.9902680687415704
       else if x =? 0.659296379611606 then 0.790423437423964
       else if x =? 0.594323007547613 then 0.828527769228899
       else 1;
     c_pow := fun x _ => x * x;
     c_atan2 := fun _ _ => 0.043880126907985664 |}.
End Binary64.

(** ** Vocabulary of the properties *)

(** The feed answered the query of [w] with a decodable feature
    collection whose features are [features]. *)
Definition feed_features (w : World) (features : list pyval) : Prop :=
  exists response d,
    requests_get w (feed_request w) = Ok response
    /\ raise_for_status response = Ok tt
    /\ json_body response = Some (PDict d)
    /\ dict_lookup "features" d = Some (PList features).

(** The failures of the feed interaction: the request raises (network
    error, timeout), the status is an error status (4xx or 5xx), the body
    is not JSON, or the decoded payload is malformed (not an object, or
    its features member is not an array). *)
Inductive feed_failure (w : World) : Prop :=
| fail_request (e : exn) :
    requests_get w (feed_request w) = Raise e ->
    is_Exception e = true ->
    feed_failure w
| fail_status (response : Response) :
    requests_get w (feed_request w) = Ok response ->
    (400 <= status_code response < 600)%Z ->
    feed_failure w
| fail_undecodable (response : Response) :
    requests_get w (feed_request w) = Ok response ->
    json_body response = None ->
    feed_failure w
| fail_not_object (response : Response) (v : pyval) :
    requests_get w (feed_request w) = Ok response ->
    json_body response = Some v ->
    (forall d, v <> PDict d) ->
    feed_failure w
| fail_features_not_array (response : Response) (d : list (string * pyval))
    (v : pyval) :
    requests_get w (feed_request w) = Ok response ->
    json_body response = Some (PDict d) ->
    dict_lookup "features" d = Some v ->
    (forall l, v <> PList l) ->
    feed_failure w.

(** The distance of a feature from the reference point, as a turn of the
    loop computes it. *)
Definition feature_distance (feature : pyval) : result pyfloat :=
  geometry <- py_getitem_str feature "geometry" ;;
  coords <- py_getitem_str geometry "coordinates" ;;
  lon <- py_getitem_int coords 0 ;;
  lat <- py_getitem_int coords 1 ;;
  calculate_distance (PFloat SF_LAT) (PFloat SF_LON) lat lon.

(** A feature record of malformed shape: no geometry, no coordinates, no
    properties, or fewer than three coordinates. *)
Inductive malformed_feature : pyval -> Prop :=
| no_geometry (d : list (string * pyval)) :
    dict_lookup "geometry" d = None ->
    malformed_feature (PDict d)
| no_coordinates (d g : list (string * pyval)) :
    dict_lookup "geometry" d = Some (PDict g) ->
    dict_lookup "coordinates" g = None ->
    malformed_feature (PDict d)
| no_properties (d : list (string * pyval)) :
    dict_lookup "properties" d = None ->
    malformed_feature (PDict d)
| short_coordinates (d g : list (string * pyval)) (cs : list pyval) :
    dict_lookup "geometry" d = Some (PDict g) ->
    dict_lookup "coordinates" g = Some (PList cs) ->
    (List.length cs < 3)%nat ->
    malformed_feature (PDict d).

(** [get_earthquake] lets a fault through to its caller. *)
Definition propagates_fault (w : World) : Prop :=
  exists e, fst (get_earthquake w) = Raise e.

(** The time field as the specification words it: the epoch milliseconds
    divided by 1000, rendered as UTC wall-clock time. *)
Definition utc_time_string (time_ms : pyval) : result string :=
  timestamp <- py_truediv time_ms 1000 ;;
  dt <- utcfromtimestamp timestamp ;;
  Ok (strftime_space_UTC dt).

(** The order of the sort keys that are numbers: the key of [b] is at
    most the key of [a]. *)
Definition key_ge {A : Type} (key : A -> pyval) (a b : A) : Prop :=
  forall x y, num_value (key a) = Some x -> num_value (key b) = Some y ->
              float_leb y x = true.

Definition numeric {A : Type} (key : A -> pyval) (a : A) : Prop :=
  exists x, num_value (key a) = Some x.

(** A sort key that is a number other than NaN. *)
Definition ordered_number {A : Type} (key : A -> pyval) (a : A) : Prop :=
  exists x, num_value (key a) = Some x /\ x <> NaN.

(** A status code outside the successful class 2xx. *)
Definition non_success_status (response : Response) : Prop :=
  ~ (200 <= status_code response < 300)%Z.

(** The magnitude that orders a record: an absent magnitude counts as 0. *)
Definition magnitude_or_0 (x : EarthquakeInfo) : option pyfloat :=
  match magnitude x with
  | PNone => Some (Finite 0)
  | m => num_value m
  end.

(** [a] may stand before [b] in a list sorted by magnitude, highest
    first: the magnitude of [b] is at most the magnitude of [a]. *)
Definition magnitude_ge (a b : EarthquakeInfo) : Prop :=
  forall x y, magnitude_or_0 a = Some x -> magnitude_or_0 b = Some y ->
              float_leb y x = true.

(** [r] is [x] rounded to one decimal place: the multiple of one tenth
    that is nearest to [x], to within the precision of a double (a relative
    error of 2^-53), which is all a float can hold of that tenth. *)
Definition rounded_to_tenth (x r : R) : Prop :=
  exists k : Z,
    Rabs (IZR k - 10 * x) <= 1 / 2
    /\ Rabs (r - IZR k / 10) <= Rabs (IZR k / 10) / 2 ^ 53.

(** What is stored for a value rounded to one decimal place: a float
    rounded to a tenth; an int, which has no decimals, as it is (a bool as
    the int it is); a NaN or an infinity as it is. *)
Inductive rounded_to_one_decimal : pyval -> pyval -> Prop :=
| rounded_float (x r : R) :
    rounded_to_tenth x r ->
    rounded_to_one_decimal (PFloat (Finite x)) (PFloat (Finite r))
| rounded_nan : rounded_to_one_decimal (PFloat NaN) (PFloat NaN)
| rounded_infinity (s : bool) :
    rounded_to_one_decimal (PFloat (Infinity s)) (PFloat (Infinity s))
| rounded_int (z : Z) : rounded_to_one_decimal (PInt z) (PInt z)
| rounded_bool (b : bool) :
    rounded_to_one_decimal (PBool b) (PInt (if b then 1 else 0)).

(** The exception that the conversion of an argument to a float raises,
    if any: [TypeError] for what is not a number, [OverflowError] for an
    int that has no float. *)
Definition conversion_error (x : pyval) : option exn :=
  match x with
  | PBool _ | PFloat _ => None
  | PInt z => if (Z.abs z <? float_overflow)%Z then None else Some OverflowError
  | PNone | PStr _ | PList _ | PDict _ => Some TypeError
  end.

(** The exception of the first argument that does not convert. *)
Fixpoint first_conversion_error (args : list pyval) : option exn :=
  match args with
  | [] => None
  | x :: args' =>
      match conversion_error x with
      | Some e => Some e
      | None => first_conversion_error args'
      end
  end.

(** [d.get(k)]: the value under [k], [None] when the key is missing. *)
Definition get_or_None (k : string) (d : list (string * pyval)) : pyval :=
  match dict_lookup k d with
  | Some v => v
  | None => PNone
  end.


(** ** Fixtures *)

(** A well-formed feature at latitude [lat], longitude [lon]. *)
Definition feature_at (lat lon : R) (mag : pyval) (time_ms : Z) : pyval :=
  PDict
    [ ("geometry",
        PDict [ ("coordinates", PList [PFloat lon; PFloat lat; PInt 10]) ]);
      ("properties", PDict [ ("mag", mag); ("time", PInt time_ms) ]) ]%string.

(** The record the loop builds for [feature_at] when local time is
    [offset] seconds ahead of UTC. *)
Definition info_at (offset : Z) (lat lon : R) (mag : pyval) (time_ms : Z)
  : EarthquakeInfo :=
  {| magnitude := mag;
     place := PNone;
     time := strftime_space_UTC
               (datetime_of_seconds (time_ms / 1000 + offset));
     distance_km := Finite (round1 (haversine 6371 SF_LAT SF_LON lat lon));
     depth_km := PInt 10;
     info_url := PNone;
     alert := PNone;
     felt := PNone;
     tsunami := PNone |}.

(** A world whose feed answers 200 with [body] and whose local time is
    [offset] seconds ahead of UTC. *)
Definition world_with (offset : Z) (body : pyval) : World :=
  {| utcnow := fun _ => 1700000000%Z;
     utcoffset := fun _ => offset;
     requests_get := fun _ => Ok {| status_code := 200; json_body := Some body |};
     sort_position := fun _ _ => 0%nat |}.

Definition feature_collection (features : list pyval) : pyval :=
  PDict [ ("features", PList features) ]%string.

(** A world whose feed answers with the status code [status] and the
    JSON body [body]; local time is UTC. *)
Definition world_answering (status : Z) (body : pyval) : World :=
  {| utcnow := fun _ => 1700000000%Z;
     utcoffset := fun _ => 0%Z;
     requests_get := fun _ => Ok {| status_code := status; json_body := Some body |};
     sort_position := fun _ _ => 0%nat |}.

(** A world whose request raises [e]. *)
Definition world_raising (e : exn) : World :=
  {| utcnow := fun _ => 1700000000%Z;
     utcoffset := fun _ => 0%Z;
     requests_get := fun _ => Raise e;
     sort_position := fun _ _ => 0%nat |}.

(** * Properties *)

(** ** Real analysis behind the distance calculator *)

Lemma PI_bounds : 3.1415 < PI < 3.1421.
Proof.
  pose proof (PI_2_3_7_ineq 1) as [Hlo Hhi].
  unfold PI_2_3_7_tg, tg_alt, Ratan_seq in Hlo, Hhi.
  simpl in Hlo, Hhi.
  lra.
Qed.

Lemma atan_le (x y : R) : x <= y -> atan x <= atan y.
Proof.
  intros [H | ->]; [left; now apply atan_increasing | right; reflexivity].
Qed.

Lemma atan2_pos_x (y x : R) : 0 < x -> atan2 y x = atan (y / x).
Proof. intros H. unfold atan2. destruct (Rlt_dec 0 x); [reflexivity | lra]. Qed.

Lemma atan2_0_1 : atan2 0 1 = 0.
Proof. rewrite atan2_pos_x by lra. replace (0 / 1) with 0 by field. apply atan_0. Qed.

Lemma atan2_1_0 : atan2 1 0 = PI / 2.
Proof.
  unfold atan2.
  destruct (Rlt_dec 0 0); [lra |].
  destruct (Rlt_dec 0 0); [lra |].
  destruct (Rlt_dec 0 1); [reflexivity | lra].
Qed.

Lemma atan2_nonneg (y x : R) : 0 <= y -> 0 <= x -> 0 <= atan2 y x.
Proof.
  intros Hy Hx. unfold atan2. pose proof PI_RGT_0.
  destruct (Rlt_dec 0 x) as [Hp | Hn].
  - rewrite <- atan_0. apply atan_le.
    apply Rmult_le_pos; [assumption | left; now apply Rinv_0_lt_compat].
  - destruct (Rlt_dec x 0); [lra |].
    destruct (Rlt_dec 0 y); [lra |].
    destruct (Rlt_dec y 0); lra.
Qed.

(** the central angle of a haversine value *)
Lemma atan2_sqrt_le (a t : R) :
  0 <= a < 1 -> 0 < t < PI / 2 -> a <= sin t ^ 2 ->
  atan2 (sqrt a) (sqrt (1 - a)) <= t.
Proof.
  intros Ha Ht Hle.
  assert (Hx : 0 < sqrt (1 - a)) by (apply sqrt_lt_R0; lra).
  rewrite atan2_pos_x by assumption.
  rewrite <- (atan_tan t) by lra.
  apply atan_le. unfold tan.
  assert (Hc : 0 < cos t) by (apply cos_gt_0; lra).
  assert (Hs : 0 < sin t) by (apply sin_gt_0; lra).
  apply Rmult_le_reg_r with (sqrt (1 - a) * cos t).
  { now apply Rmult_lt_0_compat. }
  replace (sqrt a / sqrt (1 - a) * (sqrt (1 - a) * cos t)) with (sqrt a * cos t)
    by (field; lra).
  replace (sin t / cos t * (sqrt (1 - a) * cos t)) with (sin t * sqrt (1 - a))
    by (field; lra).
  apply Rsqr_incr_0_var.
  - unfold Rsqr.
    replace (sqrt a * cos t * (sqrt a * cos t))
      with (sqrt a * sqrt a * (cos t * cos t)) by ring.
    replace (sin t * sqrt (1 - a) * (sin t * sqrt (1 - a)))
      with (sin t * sin t * (sqrt (1 - a) * sqrt (1 - a))) by ring.
    rewrite !sqrt_sqrt by lra.
    pose proof (sin2_cos2 t) as E. unfold Rsqr in E. nra.
  - apply Rmult_le_pos; lra.
Qed.

Lemma atan2_sqrt_ge (a t : R) :
  0 <= a < 1 -> 0 < t < PI / 2 -> sin t ^ 2 <= a ->
  t <= atan2 (sqrt a) (sqrt (1 - a)).
Proof.
  intros Ha Ht Hle.
  assert (Hx : 0 < sqrt (1 - a)) by (apply sqrt_lt_R0; lra).
  rewrite atan2_pos_x by assumption.
  rewrite <- (atan_tan t) by lra.
  apply atan_le. unfold tan.
  assert (Hc : 0 < cos t) by (apply cos_gt_0; lra).
  assert (Hs : 0 < sin t) by (apply sin_gt_0; lra).
  apply Rmult_le_reg_r with (sqrt (1 - a) * cos t).
  { now apply Rmult_lt_0_compat. }
  replace (sqrt a / sqrt (1 - a) * (sqrt (1 - a) * cos t)) with (sqrt a * cos t)
    by (field; lra).
  replace (sin t / cos t * (sqrt (1 - a) * cos t)) with (sin t * sqrt (1 - a))
    by (field; lra).
  apply Rsqr_incr_0_var.
  - unfold Rsqr.
    replace (sqrt a * cos t * (sqrt a * cos t))
      with (sqrt a * sqrt a * (cos t * cos t)) by ring.
    replace (sin t * sqrt (1 - a) * (sin t * sqrt (1 - a)))
      with (sin t * sin t * (sqrt (1 - a) * sqrt (1 - a))) by ring.
    rewrite !sqrt_sqrt by lra.
    pose proof (sin2_cos2 t) as E. unfold Rsqr in E. nra.
  - apply Rmult_le_pos; [apply sqrt_pos | lra].
Qed.

(** Taylor enclosures *)
Lemma sin_enclosure (x : R) : 0 <= x <= 1 -> x - x ^ 3 / 6 <= sin x <= x.
Proof.
  intros Hx. pose proof PI_bounds.
  destruct (sin_bound x 0) as [Hlo _]; [lra | lra |].
  unfold sin_approx, sin_term in Hlo. simpl in Hlo.
  split; [lra |].
  destruct (Req_dec x 0) as [-> | Hne]; [rewrite sin_0; lra |].
  left. apply sin_lt_x. lra.
Qed.

Lemma cos_enclosure (x : R) :
  0 <= x <= 1 ->
  1 - x ^ 2 / 2 + x ^ 4 / 24 - x ^ 6 / 720 <= cos x <= 1 - x ^ 2 / 2 + x ^ 4 / 24.
Proof.
  intros Hx. pose proof PI_bounds.
  destruct (cos_bound x 1) as [Hlo _]; [lra | lra |].
  destruct (cos_bound x 0) as [_ Hhi]; [lra | lra |].
  unfold cos_approx, cos_term in Hlo, Hhi. simpl in Hlo, Hhi.
  lra.
Qed.

Lemma py_sqrt_nonneg (x : R) : 0 <= x -> py_sqrt (Finite x) = Ok (Finite (sqrt x)).
Proof. intros H. unfold py_sqrt. destruct (Rle_dec 0 x); [reflexivity | contradiction]. Qed.

Lemma sin_half_sq (x : R) : sin (x / 2) ^ 2 = (1 - cos x) / 2.
Proof.
  replace (cos x) with (cos (2 * (x / 2))) by (f_equal; field).
  rewrite cos_2a_sin. field.
Qed.

Lemma sin_sq_range (x : R) : 0 <= sin x ^ 2 <= 1.
Proof.
  pose proof (sin2_cos2 x) as H. unfold Rsqr in H.
  pose proof (pow2_ge_0 (sin x)). pose proof (pow2_ge_0 (cos x)).
  nra.
Qed.

Lemma hav_a_range phi1 lam1 phi2 lam2 : 0 <= hav_a phi1 lam1 phi2 lam2 <= 1.
Proof.
  unfold hav_a.
  pose proof (sin_sq_range ((lam2 - lam1) / 2)) as Hs.
  set (s := sin ((lam2 - lam1) / 2) ^ 2) in *.
  rewrite sin_half_sq.
  pose proof (COS_bound (phi2 - phi1)) as H1.
  pose proof (COS_bound (phi2 + phi1)) as H2.
  rewrite cos_minus in *. rewrite cos_plus in H2.
  set (c1 := cos phi1) in *. set (c2 := cos phi2) in *.
  set (s1 := sin phi1) in *. set (s2 := sin phi2) in *.
  nra.
Qed.

Lemma calculate_distance_floats (lat1 lon1 lat2 lon2 : R) :
  calculate_distance (PFloat lat1) (PFloat lon1) (PFloat lat2) (PFloat lon2)
  = Ok (Finite (haversine 6371 lat1 lon1 lat2 lon2)).
Proof.
  unfold calculate_distance, haversine, radians.
  cbn [py_float bind fmul fsub fadd fdiv py_sin py_cos float_pow].
  pose proof (hav_a_range (lat1 * (PI / 180)) (lon1 * (PI / 180))
                (lat2 * (PI / 180)) (lon2 * (PI / 180))) as Ha.
  unfold hav_a in Ha.
  rewrite !py_sqrt_nonneg by lra. cbn [bind py_atan2 fmul].
  unfold Rsqr. cbn [pow]. rewrite !Rmult_1_r. reflexivity.
Qed.

Ltac pow_bound x y n :=
  let H := fresh "Hpow" in
  assert (H : x ^ n <= y ^ n) by (apply pow_incr; lra).

Lemma SF_LA_a_bounds :
  let k := PI / 180 in
  0.00192 <= hav_a (37.7749 * k) (-122.4194 * k) (34.0522 * k) (-118.2437 * k)
  <= 0.00193.
Proof.
  intros k. pose proof PI_bounds as HPI.
  assert (Hk : 3.1415 / 180 < k < 3.1421 / 180) by (unfold k; lra).
  unfold hav_a.
  replace ((34.0522 * k - 37.7749 * k) / 2) with (- (1.86135 * k)) by lra.
  replace ((-118.2437 * k - -122.4194 * k) / 2) with (2.08785 * k) by lra.
  replace (sin (- (1.86135 * k)) ^ 2) with (sin (1.86135 * k) ^ 2)
    by (rewrite sin_neg; ring).
  destruct (sin_enclosure (1.86135 * k)) as [S1lo S1hi]; [lra |].
  destruct (sin_enclosure (2.08785 * k)) as [S2lo S2hi]; [lra |].
  destruct (cos_enclosure (37.7749 * k)) as [C1lo C1hi]; [lra |].
  destruct (cos_enclosure (34.0522 * k)) as [C2lo C2hi]; [lra |].
  set (x1 := 1.86135 * k) in *. set (x2 := 2.08785 * k) in *.
  set (p1 := 37.7749 * k) in *. set (p2 := 34.0522 * k) in *.
  assert (X1 : 0.032485 < x1 < 0.032493) by (unfold x1; lra).
  assert (X2 : 0.036438 < x2 < 0.036447) by (unfold x2; lra).
  assert (P1 : 0.65927 < p1 < 0.65941) by (unfold p1; lra).
  assert (P2 : 0.59430 < p2 < 0.59443) by (unfold p2; lra).
  assert (S1 : 0.03247 <= sin x1 <= 0.032493).
  { pow_bound x1 0.032493 3%nat. lra. }
  assert (S2 : 0.03642 <= sin x2 <= 0.036447).
  { pow_bound x2 0.036447 3%nat. lra. }
  assert (C1 : 0.7903 <= cos p1 <= 0.7906).
  { pow_bound p1 0.65941 2%nat. pow_bound p1 0.65941 4%nat.
    pow_bound p1 0.65941 6%nat. pow_bound 0.65927 p1 2%nat.
    pow_bound 0.65927 p1 4%nat. lra. }
  assert (C2 : 0.8284 <= cos p2 <= 0.8287).
  { pow_bound p2 0.59443 2%nat. pow_bound p2 0.59443 4%nat.
    pow_bound p2 0.59443 6%nat. pow_bound 0.59430 p2 2%nat.
    pow_bound 0.59430 p2 4%nat. lra. }
  clear S1lo S1hi S2lo S2hi C1lo C1hi C2lo C2hi.
  set (s1 := sin x1) in *. set (s2 := sin x2) in *.
  set (c1 := cos p1) in *. set (c2 := cos p2) in *.
  pow_bound 0.03247 s1 2%nat. pow_bound s1 0.032493 2%nat.
  pow_bound 0.03642 s2 2%nat. pow_bound s2 0.036447 2%nat.
  assert (CC : 0.7903 * 0.8284 <= c1 * c2 <= 0.7906 * 0.8287).
  { split; apply Rmult_le_compat; lra. }
  set (q1 := s1 ^ 2) in *. set (q2 := s2 ^ 2) in *. set (cc := c1 * c2) in *.
  assert (Q : 0.7903 * 0.8284 * 0.03642 ^ 2 <= cc * q2
              <= 0.7906 * 0.8287 * 0.036447 ^ 2).
  { split; apply Rmult_le_compat; lra. }
  lra.
Qed.

Lemma haversine_hav_a (r lat1 lon1 lat2 lon2 : R) :
  haversine r lat1 lon1 lat2 lon2 =
  let a := hav_a (lat1 * (PI / 180)) (lon1 * (PI / 180))
                 (lat2 * (PI / 180)) (lon2 * (PI / 180)) in
  r * (2 * atan2 (sqrt a) (sqrt (1 - a))).
Proof.
  unfold haversine, hav_a, Rsqr. cbn [pow]. rewrite !Rmult_1_r. reflexivity.
Qed.

Lemma calculate_distance_numeric (lat1 lon1 lat2 lon2 : pyval) (r1 l1 r2 l2 : R) :
  py_float lat1 = Ok (Finite r1) -> py_float lon1 = Ok (Finite l1) ->
  py_float lat2 = Ok (Finite r2) -> py_float lon2 = Ok (Finite l2) ->
  calculate_distance lat1 lon1 lat2 lon2
  = Ok (Finite (haversine 6371 r1 l1 r2 l2)).
Proof.
  intros H1 H2 H3 H4.
  unfold calculate_distance, radians. rewrite H1, H2, H3, H4.
  cbn [bind fmul fsub fadd fdiv py_sin py_cos float_pow].
  pose proof (hav_a_range (r1 * (PI / 180)) (l1 * (PI / 180))
                (r2 * (PI / 180)) (l2 * (PI / 180))) as Ha.
  unfold hav_a in Ha.
  rewrite !py_sqrt_nonneg by lra. cbn [bind py_atan2 fmul].
  unfold haversine, Rsqr. cbn [pow]. rewrite !Rmult_1_r. reflexivity.
Qed.

(** The special values through the conversion to radians. *)
Lemma fmul_radians (f : pyfloat) :
  fmul f (Finite (PI / 180))
  = match f with
    | Finite r => Finite (r * (PI / 180))
    | NaN => NaN
    | Infinity s => Infinity s
    end.
Proof.
  destruct f as [r | | s]; cbn [fmul]; try reflexivity.
  pose proof PI_RGT_0 as Hpi.
  destruct (Req_dec_T (PI / 180) 0) as [E0 | _]; [lra |].
  unfold Rlt_bool. destruct (Rlt_dec (PI / 180) 0); [lra |].
  now rewrite xorb_false_r.
Qed.

(** What a call that returns has computed: a NaN, or the value of the
    formula at four finite numbers. *)
Lemma calculate_distance_Ok_inv (lat1 lon1 lat2 lon2 : pyval) (d : pyfloat) :
  calculate_distance lat1 lon1 lat2 lon2 = Ok d ->
  d = NaN
  \/ exists r1 l1 r2 l2 : R,
       py_float lat1 = Ok (Finite r1) /\ py_float lon1 = Ok (Finite l1)
       /\ py_float lat2 = Ok (Finite r2) /\ py_float lon2 = Ok (Finite l2)
       /\ d = Finite (haversine 6371 r1 l1 r2 l2).
Proof.
  intros H.
  destruct (py_float lat1) as [f1 |] eqn:E1.
  2:{ unfold calculate_distance, radians in H. rewrite E1 in H. discriminate. }
  destruct (py_float lon1) as [f2 |] eqn:E2.
  2:{ unfold calculate_distance, radians in H. rewrite E1, E2 in H. discriminate. }
  destruct (py_float lat2) as [f3 |] eqn:E3.
  2:{ unfold calculate_distance, radians in H. rewrite E1, E2, E3 in H.
      discriminate. }
  destruct (py_float lon2) as [f4 |] eqn:E4.
  2:{ unfold calculate_distance, radians in H. rewrite E1, E2, E3, E4 in H.
      discriminate. }
  destruct f1 as [r1 | | [|]], f2 as [l1 | | [|]],
           f3 as [r2 | | [|]], f4 as [l2 | | [|]];
    try (right; exists r1, l1, r2, l2;
         rewrite (calculate_distance_numeric _ _ _ _ _ _ _ _ E1 E2 E3 E4) in H;
         injection H as <-; repeat split; reflexivity);
    left; unfold calculate_distance, radians in H;
    rewrite E1, E2, E3, E4 in H; cbn [bind] in H;
    rewrite !fmul_radians in H;
    cbn [bind fsub fadd fmul fdiv py_sin py_cos py_sqrt py_atan2 float_pow
         Bool.eqb negb] in H;
    try discriminate H; injection H as <-; reflexivity.
Qed.

Lemma hav_a_sym (p1 l1 p2 l2 : R) : hav_a p1 l1 p2 l2 = hav_a p2 l2 p1 l1.
Proof.
  unfold hav_a.
  replace ((p1 - p2) / 2) with (- ((p2 - p1) / 2)) by field.
  replace ((l1 - l2) / 2) with (- ((l2 - l1) / 2)) by field.
  rewrite !sin_neg. ring.
Qed.

Lemma hav_a_refl (p l : R) : hav_a p l p l = 0.
Proof.
  unfold hav_a.
  replace ((p - p) / 2) with 0 by field.
  replace ((l - l) / 2) with 0 by field.
  rewrite sin_0. ring.
Qed.

Lemma haversine_sym (r lat1 lon1 lat2 lon2 : R) :
  haversine r lat1 lon1 lat2 lon2 = haversine r lat2 lon2 lat1 lon1.
Proof. rewrite !haversine_hav_a. cbv zeta. now rewrite hav_a_sym. Qed.

Lemma haversine_refl (r lat lon : R) : haversine r lat lon lat lon = 0.
Proof.
  rewrite haversine_hav_a. cbv zeta. rewrite hav_a_refl.
  rewrite Rminus_0_r, sqrt_0, sqrt_1, atan2_0_1. ring.
Qed.

Lemma haversine_nonneg (r lat1 lon1 lat2 lon2 : R) :
  0 <= r -> 0 <= haversine r lat1 lon1 lat2 lon2.
Proof.
  intros Hr. rewrite haversine_hav_a. cbv zeta.
  apply Rmult_le_pos; [assumption |].
  apply Rmult_le_pos; [lra |].
  apply atan2_nonneg; apply sqrt_pos.
Qed.

(** Along a meridian the distance is the radius times the angle. *)
Lemma haversine_meridian (r lat lon delta : R) :
  0 <= delta < 180 ->
  haversine r lat lon (lat + delta) lon = r * (delta * (PI / 180)).
Proof.
  intros Hd. rewrite haversine_hav_a. cbv zeta. unfold hav_a.
  pose proof PI_RGT_0 as Hpi.
  set (t := delta * (PI / 180) / 2).
  replace (((lat + delta) * (PI / 180) - lat * (PI / 180)) / 2) with t
    by (unfold t; field).
  replace ((lon * (PI / 180) - lon * (PI / 180)) / 2) with 0 by field.
  rewrite sin_0.
  replace (sin t ^ 2 + cos (lat * (PI / 180)) * cos ((lat + delta) * (PI / 180)) * 0 ^ 2)
    with (sin t ^ 2) by ring.
  assert (Ht : 0 <= t < PI / 2).
  { unfold t. split.
    - apply Rmult_le_pos; [| lra]. apply Rmult_le_pos; lra.
    - apply Rmult_lt_reg_r with (360 / PI).
      + apply Rdiv_lt_0_compat; lra.
      + replace (delta * (PI / 180) / 2 * (360 / PI)) with delta by (field; lra).
        replace (PI / 2 * (360 / PI)) with 180 by (field; lra). lra. }
  assert (Hc : 0 < cos t) by (apply cos_gt_0; lra).
  assert (Hs : 0 <= sin t) by (apply sin_ge_0; lra).
  replace (1 - sin t ^ 2) with (cos t ^ 2).
  2:{ pose proof (sin2_cos2 t) as E. unfold Rsqr in E. cbn [pow]. lra. }
  rewrite !sqrt_pow2 by lra.
  rewrite atan2_pos_x by assumption.
  change (sin t / cos t) with (tan t).
  rewrite atan_tan by lra.
  unfold t. field.
Qed.

Lemma SF_LA_distance :
  554 <= haversine 6371 37.7749 (-122.4194) 34.0522 (-118.2437) <= 564.
Proof.
  rewrite haversine_hav_a.
  pose proof SF_LA_a_bounds as Ha. cbv zeta in Ha |- *.
  set (a := hav_a _ _ _ _) in *.
  pose proof PI_bounds as HPI.
  assert (HL : 554 / 12742 <= atan2 (sqrt a) (sqrt (1 - a))).
  { apply atan2_sqrt_ge; [lra | lra |].
    destruct (sin_enclosure (554 / 12742)) as [_ Hs]; [lra |].
    assert (0 < sin (554 / 12742)) by (apply sin_gt_0; lra).
    pow_bound (sin (554 / 12742)) (554 / 12742) 2%nat. lra. }
  assert (HU : atan2 (sqrt a) (sqrt (1 - a)) <= 564 / 12742).
  { apply atan2_sqrt_le; [lra | lra |].
    destruct (sin_enclosure (564 / 12742)) as [Hs _]; [lra |].
    pow_bound 0.0442 (sin (564 / 12742)) 2%nat. lra. }
  lra.
Qed.

(** ** Rounding *)

Lemma round_half_even_IZR (z : Z) : round_half_even (IZR z) = z.
Proof.
  unfold round_half_even. rewrite ZfloorZ.
  destruct (Rlt_dec (IZR z - IZR z) (1 / 2)); [reflexivity | lra].
Qed.

Lemma round_half_even_le (x : R) (m : Z) :
  x <= IZR m -> (round_half_even x <= m)%Z.
Proof.
  intros Hx. unfold round_half_even.
  pose proof (Zfloor_bound x) as [Hlo Hhi].
  set (n := Zfloor x) in *.
  assert (Hn : (n <= m)%Z) by (apply le_IZR; lra).
  destruct (Rlt_dec (x - IZR n) (1 / 2)) as [Hf | Hf]; [assumption |].
  assert (Hlt : (n < m)%Z) by (apply lt_IZR; lra).
  destruct (Rlt_dec (1 / 2) (x - IZR n)); [lia |].
  destruct (Z.even n); lia.
Qed.

Lemma round1_le_radius (x : R) : x <= RADIUS_KM -> round1 x <= 200.
Proof.
  unfold RADIUS_KM, round1. intros Hx.
  assert (H : (round_half_even (x * 10) <= 2000)%Z)
    by (apply round_half_even_le; lra).
  apply IZR_le in H. lra.
Qed.

Lemma round1_tenths (z : Z) : round1 (IZR z / 10) = IZR z / 10.
Proof.
  unfold round1. replace (IZR z / 10 * 10) with (IZR z) by field.
  now rewrite round_half_even_IZR.
Qed.

Lemma round_half_even_near (x : R) : Rabs (IZR (round_half_even x) - x) <= 1 / 2.
Proof.
  unfold round_half_even.
  pose proof (Zfloor_bound x) as [Hlo Hhi].
  set (n := Zfloor x) in *.
  destruct (Rlt_dec (x - IZR n) (1 / 2)) as [Hf | Hf].
  - apply Rabs_le. lra.
  - assert (Hn1 : Rabs (IZR (n + 1) - x) <= 1 / 2)
      by (rewrite plus_IZR; apply Rabs_le; lra).
    destruct (Rlt_dec (1 / 2) (x - IZR n)); [assumption |].
    destruct (Z.even n); [apply Rabs_le; lra | assumption].
Qed.

Lemma round_half_even_nonneg (x : R) : 0 <= x -> (0 <= round_half_even x)%Z.
Proof.
  intros Hx. unfold round_half_even.
  assert (Hn : (0 <= Zfloor x)%Z) by (apply Zfloor_lub; exact Hx).
  destruct (Rlt_dec _ _); [assumption |].
  destruct (Rlt_dec _ _); [lia |].
  destruct (Z.even _); lia.
Qed.

Lemma round1_near (x : R) : Rabs (round1 x - x) <= 0.05.
Proof.
  unfold round1. pose proof (round_half_even_near (x * 10)) as H.
  apply Rabs_le.
  pose proof (Rle_abs (IZR (round_half_even (x * 10)) - x * 10)) as H1.
  pose proof (Rle_abs (- (IZR (round_half_even (x * 10)) - x * 10))) as H2.
  rewrite Rabs_Ropp in H2. lra.
Qed.

Lemma round1_nonneg (x : R) : 0 <= x -> 0 <= round1 x.
Proof.
  intros Hx. unfold round1.
  assert (H : (0 <= round_half_even (x * 10))%Z)
    by (apply round_half_even_nonneg; lra).
  apply IZR_le in H. lra.
Qed.

(** [round(., 1)] rounds to one decimal place. *)
Lemma round1_rounded (x : R) : rounded_to_tenth x (round1 x).
Proof.
  exists (round_half_even (x * 10)). split.
  - replace (10 * x) with (x * 10) by ring. apply round_half_even_near.
  - unfold round1.
    replace (IZR (round_half_even (x * 10)) / 10 - IZR (round_half_even (x * 10)) / 10)
      with 0 by ring.
    rewrite Rabs_R0. apply Rmult_le_pos; [apply Rabs_pos |].
    left. apply Rinv_0_lt_compat. apply pow_lt. lra.
Qed.

Lemma py_round1_rounded (v r : pyval) :
  py_round1 v = Ok r -> rounded_to_one_decimal v r.
Proof.
  destruct v as [| b | z | [x | | s] | s | l | d]; cbn [py_round1 float_round1];
    try discriminate; intros [= <-]; constructor.
  apply round1_rounded.
Qed.

(** ** The radius guard *)

Lemma float_leb_finite (x y : R) : float_leb (Finite x) (Finite y) = true <-> x <= y.
Proof.
  cbn [float_leb]. unfold Rle_bool. destruct (Rle_dec x y); split; auto; discriminate.
Qed.

Lemma float_leb_finite_false (x y : R) :
  float_leb (Finite x) (Finite y) = false <-> y < x.
Proof.
  cbn [float_leb]. unfold Rle_bool.
  destruct (Rle_dec x y); split; intros; try lra; try discriminate; reflexivity.
Qed.

(** A distance that passes the guard [distance <= RADIUS_KM] is a
    number between 0 and the radius: a NaN fails the guard, and the
    function returns no infinity. *)
Lemma accepted_distance_finite (lat lon : pyval) (d : pyfloat) :
  calculate_distance (PFloat SF_LAT) (PFloat SF_LON) lat lon = Ok d ->
  float_leb d RADIUS_KM = true ->
  exists r : R, d = Finite r /\ 0 <= r /\ r <= RADIUS_KM.
Proof.
  intros Hd Hle.
  destruct (calculate_distance_Ok_inv _ _ _ _ _ Hd)
    as [-> | (r1 & l1 & r2 & l2 & _ & _ & _ & _ & ->)]; [discriminate Hle |].
  eexists. split; [reflexivity |].
  split; [apply haversine_nonneg; lra | now apply float_leb_finite].
Qed.

(** ** Exceptions of the loop *)

Ltac bind_case H :=
  match type of H with
  | bind ?m _ = _ =>
      let E := fresh "E" in
      destruct m eqn:E; cbn [bind] in H
  end.

Ltac bind_ok H x E :=
  match type of H with
  | bind ?m _ = _ => destruct m as [x |] eqn:E; cbn [bind] in H; [| discriminate]
  end.

Lemma py_getitem_str_Exception o k e :
  py_getitem_str o k = Raise e -> is_Exception e = true.
Proof.
  destruct o; cbn; try (intros [= <-]; reflexivity).
  destruct (dict_lookup k d); [discriminate | intros [= <-]; reflexivity].
Qed.

Lemma py_getitem_int_Exception o i e :
  py_getitem_int o i = Raise e -> is_Exception e = true.
Proof.
  destruct o; cbn; try (intros [= <-]; reflexivity).
  - destruct (String.get i s); [discriminate | intros [= <-]; reflexivity].
  - destruct (nth_error l i); [discriminate | intros [= <-]; reflexivity].
Qed.

Lemma py_get_Exception o k d e :
  py_get o k d = Raise e -> is_Exception e = true.
Proof. destruct o; cbn; try discriminate; intros [= <-]; reflexivity. Qed.

Lemma py_float_Exception x e : py_float x = Raise e -> is_Exception e = true.
Proof.
  destruct x; cbn [py_float]; try discriminate; try (intros [= <-]; reflexivity).
  destruct (_ <? _)%Z; [discriminate | intros [= <-]; reflexivity].
Qed.

Lemma int_truediv_Exception z n e :
  int_truediv z n = Raise e -> is_Exception e = true.
Proof.
  unfold int_truediv.
  destruct (_ <? _)%Z; [discriminate | intros [= <-]; reflexivity].
Qed.

Lemma py_truediv_Exception x n e :
  py_truediv x n = Raise e -> is_Exception e = true.
Proof.
  destruct x; cbn [py_truediv]; try discriminate;
    try (intros [= <-]; reflexivity); apply int_truediv_Exception.
Qed.

Lemma py_round1_Exception x e : py_round1 x = Raise e -> is_Exception e = true.
Proof. destruct x; cbn; try discriminate; intros [= <-]; reflexivity. Qed.

Lemma py_iter_Exception x e : py_iter x = Raise e -> is_Exception e = true.
Proof. destruct x; cbn; try discriminate; intros [= <-]; reflexivity. Qed.

Lemma wall_clock_Exception secs offset e :
  wall_clock secs offset = Raise e -> is_Exception e = true.
Proof.
  unfold wall_clock.
  destruct (_ <? _)%Z; [intros [= <-]; reflexivity |].
  destruct (_ || _)%bool; [intros [= <-]; reflexivity |].
  destruct (_ && _)%bool; [discriminate | intros [= <-]; reflexivity].
Qed.

Lemma fromtimestamp_Exception w t e :
  fromtimestamp w t = Raise e -> is_Exception e = true.
Proof.
  destruct t; cbn [fromtimestamp]; try (intros [= <-]; reflexivity).
  intros H.
  bind_case H; [| injection H as <-; eauto using wall_clock_Exception].
  bind_case H; [discriminate | injection H as <-; eauto using wall_clock_Exception].
Qed.

Lemma py_sqrt_Exception x e : py_sqrt x = Raise e -> is_Exception e = true.
Proof.
  destruct x as [r | | [|]]; cbn [py_sqrt]; try discriminate;
    try (intros [= <-]; reflexivity).
  destruct (Rle_dec 0 r); [discriminate | intros [= <-]; reflexivity].
Qed.

Lemma py_sin_Exception x e : py_sin x = Raise e -> is_Exception e = true.
Proof. destruct x; cbn; try discriminate; intros [= <-]; reflexivity. Qed.

Lemma py_cos_Exception x e : py_cos x = Raise e -> is_Exception e = true.
Proof. destruct x; cbn; try discriminate; intros [= <-]; reflexivity. Qed.

Lemma radians_Exception x e : radians x = Raise e -> is_Exception e = true.
Proof.
  unfold radians. intros H. bind_case H; [discriminate |].
  injection H as <-. eauto using py_float_Exception.
Qed.

Lemma calculate_distance_Exception a b c d e :
  calculate_distance a b c d = Raise e -> is_Exception e = true.
Proof.
  unfold calculate_distance. intros H.
  repeat (bind_case H;
          [| injection H as <-;
             eauto using radians_Exception, py_sqrt_Exception,
               py_sin_Exception, py_cos_Exception]).
  discriminate.
Qed.

Lemma list_sort_reverse_Exception {A} position (key : A -> pyval) l e :
  list_sort_reverse position key l = Raise e -> is_Exception e = true.
Proof.
  unfold list_sort_reverse.
  destruct (all_comparable _); [| intros [= <-]; reflexivity].
  destruct (existsb _ _); [destruct (no_ascent _ _) |]; discriminate.
Qed.

Create HintDb exceptions.

#[local] Hint Resolve py_getitem_str_Exception py_getitem_int_Exception
  py_get_Exception py_truediv_Exception py_round1_Exception py_iter_Exception
  fromtimestamp_Exception calculate_distance_Exception
  list_sort_reverse_Exception : exceptions.

Lemma loop_body_Exception w f acc e :
  loop_body w f acc = Raise e -> is_Exception e = true.
Proof.
  unfold loop_body. intros H.
  do 5 (bind_case H; [| injection H as <-; eauto with exceptions]).
  destruct (float_leb _ _); [| discriminate].
  repeat (bind_case H; [| injection H as <-; eauto with exceptions]).
  discriminate.
Qed.

Lemma for_features_Exception w fs acc e :
  for_features w fs acc = Raise e -> is_Exception e = true.
Proof.
  revert acc. induction fs as [| f fs IH]; intros acc H; cbn in H.
  - discriminate.
  - bind_case H; [eauto | injection H as <-; eauto using loop_body_Exception].
Qed.

(** ** The try block and its handler *)

Lemma get_earthquake_Ok w l :
  get_earthquake_try w = Ok l -> get_earthquake w = (Ok l, []).
Proof. unfold get_earthquake, try_except_Exception. now intros ->. Qed.

Lemma get_earthquake_masked w e :
  get_earthquake_try w = Raise e -> is_Exception e = true ->
  get_earthquake w = (Ok [], [ErrorFetching e]).
Proof. unfold get_earthquake, try_except_Exception. now intros -> ->. Qed.

Lemma get_earthquake_features w features :
  feed_features w features ->
  get_earthquake_try w =
  (nearby <- for_features w features [] ;;
   list_sort_reverse (sort_position w) sort_key nearby).
Proof.
  intros (response & d & Hget & Hstatus & Hbody & Hfeat).
  unfold get_earthquake_try, response_json, py_get.
  rewrite Hget. cbn [bind]. rewrite Hstatus. cbn [bind].
  rewrite Hbody. cbn [bind]. rewrite Hfeat. reflexivity.
Qed.


Lemma get_earthquakes_api_fst w :
  fst (get_earthquakes_api w) =
  (earthquakes_ <- fst (get_earthquake w) ;;
   Ok {| http_status := 200;
         count := List.length earthquakes_;
         earthquakes := earthquakes_;
         last_updated := strftime_space_UTC (datetime_of_seconds (utcnow w 1)) |}).
Proof. unfold get_earthquakes_api. now destruct (get_earthquake w). Qed.

(** ** Failures of the feed *)

Lemma feed_failure_try w :
  feed_failure w ->
  get_earthquake_try w = Ok [] \/
  exists e, get_earthquake_try w = Raise e /\ is_Exception e = true.
Proof.
  intros [e Hget He | response Hget Hst | response Hget Hbody
         | response v Hget Hbody Hv | response d v Hget Hbody Hfeat Hv];
    unfold get_earthquake_try; rewrite Hget; cbn [bind].
  - right. now exists e.
  - right. exists (HTTPError (status_code response)). split; [| reflexivity].
    unfold raise_for_status.
    replace ((400 <=? status_code response)%Z) with true
      by (symmetry; apply Z.leb_le; lia).
    replace ((status_code response <? 600)%Z) with true
      by (symmetry; apply Z.ltb_lt; lia).
    reflexivity.
  - destruct (raise_for_status response) as [[] | e] eqn:Hs; cbn [bind].
    + right. exists JSONDecodeError. unfold response_json. now rewrite Hbody.
    + right. exists e. split; [reflexivity |].
      unfold raise_for_status in Hs.
      destruct (_ && _)%bool; [injection Hs as <-; reflexivity | discriminate].
  - destruct (raise_for_status response) as [[] | e] eqn:Hs; cbn [bind].
    + right. exists AttributeError. unfold response_json. rewrite Hbody.
      cbn [bind]. split; [| reflexivity].
      destruct v as [| b | z | r | s | l | d0]; try reflexivity.
      now destruct (Hv d0).
    + right. exists e. split; [reflexivity |].
      unfold raise_for_status in Hs.
      destruct (_ && _)%bool; [injection Hs as <-; reflexivity | discriminate].
  - destruct (raise_for_status response) as [[] | e] eqn:Hs; cbn [bind].
    + unfold response_json. rewrite Hbody. cbn [bind py_get]. rewrite Hfeat.
      cbn [bind].
      destruct v as [| b | z | r | s | l | d']; cbn [py_iter bind];
        try (right; exists TypeError; split; reflexivity).
      * destruct s as [| c s]; [left; reflexivity |].
        right. exists TypeError. split; reflexivity.
      * now destruct (Hv l).
      * destruct d' as [| [k v'] d']; [left; reflexivity |].
        right. exists TypeError. split; reflexivity.
    + right. exists e. split; [reflexivity |].
      unfold raise_for_status in Hs.
      destruct (_ && _)%bool; [injection Hs as <-; reflexivity | discriminate].
Qed.

Lemma feed_failure_empty w : feed_failure w -> fst (get_earthquake w) = Ok [].
Proof.
  intros H. destruct (feed_failure_try w H) as [E | (e & E & He)].
  - now rewrite (get_earthquake_Ok _ _ E).
  - now rewrite (get_earthquake_masked _ _ E He).
Qed.

(** ** One turn of the loop *)

(** What a turn that completes has done. *)
Lemma loop_body_inv w f acc acc' :
  loop_body w f acc = Ok acc' ->
  exists geometry coords lon lat distance,
    py_getitem_str f "geometry" = Ok geometry
    /\ py_getitem_str geometry "coordinates" = Ok coords
    /\ py_getitem_int coords 0 = Ok lon
    /\ py_getitem_int coords 1 = Ok lat
    /\ calculate_distance (PFloat SF_LAT) (PFloat SF_LON) lat lon = Ok distance
    /\ ((float_leb distance RADIUS_KM = false /\ acc' = acc)
        \/ (float_leb distance RADIUS_KM = true
            /\ exists properties time_ms timestamp dt depth info,
                py_getitem_str f "properties" = Ok properties
                /\ py_get properties "mag" PNone = Ok (magnitude info)
                /\ py_get properties "time" PNone = Ok time_ms
                /\ py_truediv time_ms 1000 = Ok timestamp
                /\ fromtimestamp w timestamp = Ok dt
                /\ time info = strftime_space_UTC dt
                /\ py_getitem_int coords 2 = Ok depth
                /\ py_round1 depth = Ok (depth_km info)
                /\ distance_km info = float_round1 distance
                /\ acc' = acc ++ [info])).
Proof.
  unfold loop_body. intros H.
  bind_ok H geometry Eg. bind_ok H coords Ec.
  bind_ok H lon Elon. bind_ok H lat Elat. bind_ok H distance Ed.
  exists geometry, coords, lon, lat, distance.
  repeat (split; [first [reflexivity | assumption] |]).
  destruct (float_leb distance RADIUS_KM) eqn:Hle.
  - right. split; [reflexivity |].
    bind_ok H properties Ep. bind_ok H mag Em. bind_ok H place_ Epl.
    bind_ok H time_ms Et. bind_ok H timestamp Ets. bind_ok H dt Edt.
    bind_ok H depth Edepth. bind_ok H depth_rounded Er.
    bind_ok H url_ Eu. bind_ok H alert_ Ea. bind_ok H felt_ Ef.
    bind_ok H tsunami_ Ety.
    injection H as <-.
    exists properties, time_ms, timestamp, dt, depth,
      {| magnitude := mag; place := place_; time := strftime_space_UTC dt;
         distance_km := float_round1 distance; depth_km := depth_rounded;
         info_url := url_; alert := alert_; felt := felt_;
         tsunami := tsunami_ |}.
    cbn [magnitude time depth_km distance_km].
    repeat (split; [first [reflexivity | eassumption] |]). reflexivity.
  - left. injection H as <-. split; reflexivity.
Qed.

(** A turn only appends. *)
Lemma loop_body_app w f acc :
  loop_body w f acc = (new <- loop_body w f [] ;; Ok (acc ++ new)).
Proof.
  unfold loop_body.
  repeat (match goal with
          | |- bind ?m _ = bind (bind ?m _) _ => destruct m; cbn [bind]
          | |- (if ?c then _ else _) = bind (if ?c then _ else _) _ => destruct c
          end; try reflexivity).
  cbn [bind]. now rewrite app_nil_r.
Qed.

Lemma for_features_app w fs acc :
  for_features w fs acc = (new <- for_features w fs [] ;; Ok (acc ++ new)).
Proof.
  revert acc. induction fs as [| f fs IH]; intros acc; cbn [for_features].
  - cbn [bind]. now rewrite app_nil_r.
  - rewrite loop_body_app. destruct (loop_body w f []) as [new |]; cbn [bind].
    + rewrite IH. rewrite (IH new). cbn [app].
      destruct (for_features w fs []); cbn [bind]; [| reflexivity].
      now rewrite app_assoc.
    + reflexivity.
Qed.

Lemma for_features_cons w f fs :
  for_features w (f :: fs) [] =
  (first <- loop_body w f [] ;; rest <- for_features w fs [] ;; Ok (first ++ rest)).
Proof.
  cbn [for_features]. destruct (loop_body w f []) as [first |]; cbn [bind].
  - now rewrite for_features_app.
  - reflexivity.
Qed.

(** Every record of the loop's list carries a distance within the radius. *)
Lemma loop_body_within_radius w f acc acc' :
  loop_body w f acc = Ok acc' ->
  Forall (fun x => exists d : R, distance_km x = Finite d /\ d <= 200) acc ->
  Forall (fun x => exists d : R, distance_km x = Finite d /\ d <= 200) acc'.
Proof.
  intros H Hacc.
  destruct (loop_body_inv _ _ _ _ H)
    as (g & c & lon & lat & d & _ & _ & _ & _ & Hd & [[_ ->] | [Hle Hrest]]).
  - assumption.
  - destruct Hrest as (p & ms & ts & dt & depth & info & Hinfo).
    destruct Hinfo as (_ & _ & _ & _ & _ & _ & _ & _ & Hdist & ->).
    apply Forall_app. split; [assumption |].
    constructor; [| constructor].
    destruct (accepted_distance_finite _ _ _ Hd Hle) as (r & -> & _ & Hr).
    exists (round1 r). split; [exact Hdist |]. now apply round1_le_radius.
Qed.

Lemma for_features_within_radius w fs acc acc' :
  for_features w fs acc = Ok acc' ->
  Forall (fun x => exists d : R, distance_km x = Finite d /\ d <= 200) acc ->
  Forall (fun x => exists d : R, distance_km x = Finite d /\ d <= 200) acc'.
Proof.
  revert acc. induction fs as [| f fs IH]; intros acc H Hacc; cbn in H.
  - now injection H as <-.
  - bind_case H; [| discriminate].
    eauto using loop_body_within_radius.
Qed.

(** ** The order of floats *)

Ltac float_order :=
  cbn [float_ltb float_leb float_eqb andb orb negb Bool.eqb] in *;
  unfold Rlt_bool, Rle_bool, Req_bool in *;
  repeat match goal with
         | H : context [Rlt_dec ?a ?b] |- _ => destruct (Rlt_dec a b)
         | H : context [Rle_dec ?a ?b] |- _ => destruct (Rle_dec a b)
         | H : context [Req_dec_T ?a ?b] |- _ => destruct (Req_dec_T a b)
         | |- context [Rlt_dec ?a ?b] => destruct (Rlt_dec a b)
         | |- context [Rle_dec ?a ?b] => destruct (Rle_dec a b)
         | |- context [Req_dec_T ?a ?b] => destruct (Req_dec_T a b)
         end;
  try reflexivity; try discriminate; try congruence; try lra.

Lemma float_ltb_leb (x y : pyfloat) : float_ltb x y = true -> float_leb x y = true.
Proof. destruct x as [a | | [|]], y as [b | | [|]]; intros H; float_order. Qed.

(** Away from NaN the order is total. *)
Lemma float_not_ltb_leb (x y : pyfloat) :
  x <> NaN -> y <> NaN -> float_ltb x y = false -> float_leb y x = true.
Proof. destruct x as [a | | [|]], y as [b | | [|]]; intros Hx Hy H; float_order. Qed.

Lemma float_leb_trans (x y z : pyfloat) :
  float_leb x y = true -> float_leb y z = true -> float_leb x z = true.
Proof.
  destruct x as [a | | [|]], y as [b | | [|]], z as [c | | [|]];
    intros H1 H2; float_order.
Qed.


(** ** Sorting *)

Section Sorting.
Context {A : Type} (position : list pyval -> pyval -> nat) (key : A -> pyval).

Lemma insert_desc_perm (x : A) (l : list A) :
  Permutation (x :: l) (insert_desc key x l).
Proof.
  induction l as [| y l IH]; cbn [insert_desc].
  - reflexivity.
  - destruct (py_ltb (key x) (key y)).
    + rewrite perm_swap. now constructor.
    + reflexivity.
Qed.

Lemma fold_insert_perm (l : list A) :
  Permutation l (fold_right (insert_desc key) [] l).
Proof.
  induction l as [| x l IH]; cbn [fold_right].
  - constructor.
  - rewrite <- insert_desc_perm. now constructor.
Qed.

Lemma insert_at_perm (n : nat) (x : A) (l : list A) :
  Permutation (x :: l) (insert_at n x l).
Proof.
  revert n. induction l as [| y l IH]; intros [| n]; cbn [insert_at];
    try reflexivity.
  rewrite perm_swap. constructor. apply IH.
Qed.

Lemma fold_insert_at_perm (l : list A) :
  Permutation l
    (fold_right
       (fun x placed => insert_at (position (map key placed) (key x)) x placed)
       [] l).
Proof.
  induction l as [| x l IH]; cbn [fold_right].
  - constructor.
  - rewrite <- insert_at_perm. now constructor.
Qed.

(** Whatever the keys, the sort only rearranges. *)
Lemma list_sort_reverse_perm (l l' : list A) :
  list_sort_reverse position key l = Ok l' -> Permutation l l'.
Proof.
  unfold list_sort_reverse. destruct (all_comparable _); [| discriminate].
  destruct (existsb _ _).
  - destruct (no_ascent _ _); intros [= <-];
      [reflexivity | apply fold_insert_at_perm].
  - intros [= <-]. apply fold_insert_perm.
Qed.

Lemma py_ltb_numeric (a b : pyval) (x y : pyfloat) :
  num_value a = Some x -> num_value b = Some y -> py_ltb a b = float_ltb x y.
Proof.
  intros Ha Hb. unfold py_ltb.
  destruct a; try discriminate; cbn [py_lt]; rewrite Ha, Hb;
    now destruct (float_ltb x y).
Qed.

Lemma insert_desc_sorted (x : A) (l : list A) :
  Forall (ordered_number key) (x :: l) ->
  StronglySorted (key_ge key) l -> StronglySorted (key_ge key) (insert_desc key x l).
Proof.
  intros Hnum Hs. induction Hs as [| y l Hs IH Hy]; cbn [insert_desc].
  - constructor; constructor.
  - inversion Hnum as [| ? ? [vx [Hx Hnx]] Hnum']; subst.
    inversion Hnum' as [| ? ? [vy [Hvy Hny]] Hnum'']; subst.
    rewrite (py_ltb_numeric _ _ _ _ Hx Hvy).
    destruct (float_ltb vx vy) eqn:Hlt.
    + constructor.
      * apply IH. constructor; [now exists vx | assumption].
      * apply (Permutation_Forall (insert_desc_perm x l)).
        constructor; [| assumption].
        intros a b Ha Hb. rewrite Hvy in Ha. rewrite Hx in Hb.
        injection Ha as <-. injection Hb as <-. now apply float_ltb_leb.
    + constructor; [now constructor |].
      constructor.
      * intros a b Ha Hb. rewrite Hx in Ha. rewrite Hvy in Hb.
        injection Ha as <-. injection Hb as <-. now apply float_not_ltb_leb.
      * eapply Forall_impl; [| exact Hy].
        intros z Hz a b Ha Hb. rewrite Hx in Ha. injection Ha as <-.
        specialize (Hz vy b Hvy Hb).
        apply float_leb_trans with vy; [assumption |].
        now apply float_not_ltb_leb.
Qed.

Lemma fold_insert_sorted (l : list A) :
  Forall (ordered_number key) l ->
  StronglySorted (key_ge key) (fold_right (insert_desc key) [] l).
Proof.
  induction l as [| x l IH]; intros Hnum; cbn [fold_right].
  - constructor.
  - inversion Hnum; subst. apply insert_desc_sorted; [| now apply IH].
    constructor; [assumption |].
    now apply (Permutation_Forall (fold_insert_perm l)).
Qed.

Lemma not_numeric_sorted (l : list A) :
  Forall (fun a => num_value (key a) = None) l -> StronglySorted (key_ge key) l.
Proof.
  induction 1 as [| a l Ha Hl IH]; constructor; [assumption |].
  apply Forall_forall. intros b _ x y Hx. congruence.
Qed.

Lemma comparable_numeric (a b : pyval) (x : pyfloat) :
  num_value a = Some x -> comparable a b = true -> exists y, num_value b = Some y.
Proof.
  intros Ha. unfold comparable.
  destruct a; try discriminate; cbn [py_lt]; rewrite Ha;
    destruct (num_value b) as [y |]; try discriminate; eauto.
Qed.

Lemma comparable_not_numeric (a b : pyval) :
  num_value a = None -> comparable a b = true -> num_value b = None.
Proof.
  intros Ha. unfold comparable.
  destruct (py_lt a b); [| discriminate].
  destruct b; try reflexivity; cbn [py_lt num_value]; rewrite Ha; discriminate.
Qed.

Lemma all_comparable_kinds (l : list A) :
  all_comparable (map key l) = true ->
  Forall (numeric key) l \/ Forall (fun a => num_value (key a) = None) l.
Proof.
  destruct l as [| a l]; [now left |].
  cbn [map all_comparable]. intros H.
  apply andb_prop in H as [H _]. rewrite forallb_forall in H.
  destruct (num_value (key a)) as [x |] eqn:Ha.
  - left. constructor; [now exists x |].
    apply Forall_forall. intros b Hb.
    eapply comparable_numeric; [exact Ha |]. apply H. now apply in_map.
  - right. constructor; [assumption |].
    apply Forall_forall. intros b Hb.
    eapply comparable_not_numeric; [exact Ha |]. apply H. now apply in_map.
Qed.

Lemma no_nan_keys (l : list A) :
  existsb has_nan (map key l) = false ->
  Forall (fun a => has_nan (key a) = false) l.
Proof.
  induction l as [| a l IH]; cbn [map existsb]; intros H; constructor.
  - now destruct (has_nan (key a)).
  - apply IH. now destruct (has_nan (key a)).
Qed.

Lemma has_nan_number (v : pyval) (x : pyfloat) :
  has_nan v = false -> num_value v = Some x -> x <> NaN.
Proof.
  destruct v as [| b | z | f | s | l | d]; cbn [num_value]; try discriminate;
    intros Hn [= <-]; try discriminate.
  intros ->. discriminate Hn.
Qed.

Lemma numeric_ordered (l : list A) :
  Forall (fun a => has_nan (key a) = false) l ->
  Forall (numeric key) l -> Forall (ordered_number key) l.
Proof.
  intros Hn Hnum. induction Hnum as [| a l [x Hx] Hl IH]; constructor.
  - exists x. split; [assumption |].
    apply (has_nan_number (key a)); [| assumption]. now inversion Hn.
  - apply IH. now inversion Hn.
Qed.

(** With no NaN among the keys, the result is in descending order. *)
Lemma list_sort_reverse_sorted (l l' : list A) :
  list_sort_reverse position key l = Ok l' ->
  existsb has_nan (map key l) = false ->
  StronglySorted (key_ge key) l'.
Proof.
  intros H Hnan. pose proof (list_sort_reverse_perm _ _ H) as Hperm.
  unfold list_sort_reverse in H.
  destruct (all_comparable (map key l)) eqn:Hc; [| discriminate].
  rewrite Hnan in H. injection H as <-.
  destruct (all_comparable_kinds l Hc) as [Hnum | Hnone].
  - apply fold_insert_sorted. apply numeric_ordered; [| assumption].
    now apply no_nan_keys.
  - apply not_numeric_sorted. now apply (Permutation_Forall Hperm).
Qed.

(** A list that holds a NaN key and in which no item is followed by one
    of a greater key comes back as it is. *)
Lemma list_sort_reverse_run (l : list A) :
  all_comparable (map key l) = true ->
  existsb has_nan (map key l) = true ->
  no_ascent key l = true ->
  list_sort_reverse position key l = Ok l.
Proof. intros H1 H2 H3. unfold list_sort_reverse. now rewrite H1, H2, H3. Qed.
End Sorting.

Lemma list_sort_reverse_ext {A} (key : A -> pyval) (l : list A)
    (position position' : list pyval -> pyval -> nat) :
  (forall keys k, position keys k = position' keys k) ->
  list_sort_reverse position key l = list_sort_reverse position' key l.
Proof.
  intros H. unfold list_sort_reverse.
  destruct (all_comparable _); [| reflexivity].
  destruct (existsb _ _); [| reflexivity].
  destruct (no_ascent _ _); [reflexivity |].
  f_equal. induction l as [| x l IH]; cbn [fold_right]; [reflexivity |].
  now rewrite IH, H.
Qed.

(** ** Magnitude order *)

Lemma float_eqb_zero (f : pyfloat) : float_eqb f (Finite 0) = true -> f = Finite 0.
Proof.
  destruct f as [r | | s]; cbn [float_eqb]; try discriminate.
  unfold Req_bool. destruct (Req_dec_T r 0) as [-> | _]; [reflexivity | discriminate].
Qed.

Lemma sort_key_magnitude (a : EarthquakeInfo) (x : pyfloat) :
  magnitude_or_0 a = Some x -> num_value (sort_key a) = Some x.
Proof.
  unfold magnitude_or_0, sort_key.
  destruct (magnitude a) as [| b | z | f | s | l | d]; cbn [py_truthy num_value];
    try discriminate.
  - now intros [= <-].
  - destruct b; [trivial | now intros [= <-]].
  - destruct (Z.eqb_spec z 0) as [-> | Hz]; cbn [negb num_value]; trivial.
  - destruct (float_eqb f (Finite 0)) eqn:Hf; cbn [negb num_value]; [| trivial].
    apply float_eqb_zero in Hf as ->. trivial.
Qed.

Lemma sort_key_has_nan (a : EarthquakeInfo) :
  has_nan (magnitude a) = false -> has_nan (sort_key a) = false.
Proof.
  unfold sort_key. destruct (py_truthy (magnitude a)); [trivial | reflexivity].
Qed.

Lemma key_ge_magnitude_ge (a b : EarthquakeInfo) :
  key_ge sort_key a b -> magnitude_ge a b.
Proof.
  intros H x y Hx Hy. apply (H x y); now apply sort_key_magnitude.
Qed.

Lemma StronglySorted_impl {A} (P Q : A -> A -> Prop) (l : list A) :
  (forall a b, P a b -> Q a b) -> StronglySorted P l -> StronglySorted Q l.
Proof.
  intros HPQ. induction 1 as [| a l Hs IH Ha]; constructor; [assumption |].
  eapply Forall_impl; [| exact Ha]. auto.
Qed.

(** ** Malformed features *)

Lemma feature_distance_of_parts f geometry coords lon lat :
  py_getitem_str f "geometry" = Ok geometry ->
  py_getitem_str geometry "coordinates" = Ok coords ->
  py_getitem_int coords 0 = Ok lon ->
  py_getitem_int coords 1 = Ok lat ->
  feature_distance f = calculate_distance (PFloat SF_LAT) (PFloat SF_LON) lat lon.
Proof.
  intros Hg Hc Hlon Hlat. unfold feature_distance.
  rewrite Hg. cbn [bind]. rewrite Hc. cbn [bind].
  rewrite Hlon. cbn [bind]. now rewrite Hlat.
Qed.

(** A feature whose distance fails the guard (it is beyond the radius,
    or a NaN) is passed over. *)
Lemma loop_body_far w f acc d :
  feature_distance f = Ok d -> float_leb d RADIUS_KM = false ->
  loop_body w f acc = Ok acc.
Proof.
  unfold feature_distance. intros H Hd.
  bind_ok H geometry Eg. bind_ok H coords Ec.
  bind_ok H lon Elon. bind_ok H lat Elat.
  unfold loop_body.
  rewrite Eg. cbn [bind]. rewrite Ec. cbn [bind]. rewrite Elon. cbn [bind].
  rewrite Elat. cbn [bind]. rewrite H. cbn [bind].
  now rewrite Hd.
Qed.

Lemma malformed_feature_raises w f acc :
  malformed_feature f ->
  (forall d, feature_distance f = Ok d -> float_leb d RADIUS_KM = true) ->
  exists e, loop_body w f acc = Raise e.
Proof.
  intros Hbad Hnear.
  destruct (loop_body w f acc) as [acc' | e] eqn:Hrun; [exfalso | now exists e].
  destruct (loop_body_inv _ _ _ _ Hrun)
    as (geometry & coords & lon & lat & distance
        & Hg & Hc & Hlon & Hlat & Hd & Hcases).
  assert (Hle : float_leb distance RADIUS_KM = true).
  { apply Hnear. now rewrite (feature_distance_of_parts _ _ _ _ _ Hg Hc Hlon Hlat). }
  destruct Hcases as [[Hfar _] | [_ Hin]]; [congruence |].
  destruct Hin as (properties & ms & ts & dt & depth & info
                   & Hp & _ & _ & _ & _ & _ & Hdepth & _).
  destruct Hbad as [d Hno | d g Hgeo Hno | d Hno | d g cs Hgeo Hcs Hlen];
    cbn [py_getitem_str] in Hg, Hp.
  - now rewrite Hno in Hg.
  - rewrite Hgeo in Hg. injection Hg as <-.
    cbn [py_getitem_str] in Hc. now rewrite Hno in Hc.
  - now rewrite Hno in Hp.
  - rewrite Hgeo in Hg. injection Hg as <-.
    cbn [py_getitem_str] in Hc. rewrite Hcs in Hc. injection Hc as <-.
    cbn [py_getitem_int] in Hdepth.
    assert (Hnone : nth_error cs 2 = None) by (apply nth_error_None; lia).
    now rewrite Hnone in Hdepth.
Qed.

(** ** Evaluation on the fixtures *)

Lemma world_with_features offset fs :
  feed_features (world_with offset (feature_collection fs)) fs.
Proof.
  exists {| status_code := 200; json_body := Some (feature_collection fs) |},
    [("features"%string, PList fs)].
  repeat split; reflexivity.
Qed.

Lemma microseconds_of_ms (ms : Z) :
  timestamp_seconds (IZR ms / 1000) = (ms / 1000)%Z.
Proof.
  unfold timestamp_seconds.
  replace (IZR ms / 1000 * 1000000) with (IZR (ms * 1000))
    by (rewrite mult_IZR; field).
  rewrite round_half_even_IZR.
  change 1000000%Z with (1000 * 1000)%Z.
  apply Z.div_mul_cancel_r; lia.
Qed.

Lemma fromtimestamp_ms w (ms : Z) :
  fromtimestamp w (Finite (IZR ms / 1000))
  = (dt <- wall_clock (ms / 1000) (utcoffset w (ms / 1000)) ;;
     _ <- wall_clock (ms / 1000 - 86400) (utcoffset w (ms / 1000 - 86400)) ;;
     Ok dt).
Proof. cbn [fromtimestamp]. now rewrite microseconds_of_ms. Qed.

Lemma utcfromtimestamp_ms (ms : Z) :
  utcfromtimestamp (Finite (IZR ms / 1000)) = wall_clock (ms / 1000) 0.
Proof. cbn [utcfromtimestamp]. now rewrite microseconds_of_ms. Qed.

(** On a host whose local time is UTC, what [fromtimestamp] returns is
    the UTC reading. *)
Lemma fromtimestamp_utc_host w t dt :
  (forall s, utcoffset w s = 0%Z) ->
  fromtimestamp w t = Ok dt -> utcfromtimestamp t = Ok dt.
Proof.
  intros H. destruct t; cbn [fromtimestamp utcfromtimestamp]; try discriminate.
  rewrite !H. intros Hdt.
  destruct (wall_clock (timestamp_seconds r) 0) as [dt0 |]; cbn [bind] in Hdt;
    [| discriminate].
  destruct (wall_clock _ 0); cbn [bind] in Hdt; [assumption | discriminate].
Qed.

Lemma feature_distance_feature_at lat lon mag ms :
  feature_distance (feature_at lat lon mag ms)
  = Ok (Finite (haversine 6371 SF_LAT SF_LON lat lon)).
Proof.
  unfold feature_distance, feature_at.
  cbn [py_getitem_str dict_lookup String.eqb Ascii.eqb Bool.eqb bind
       py_getitem_int nth_error].
  apply calculate_distance_floats.
Qed.

Lemma loop_body_feature_at w lat lon mag ms acc :
  haversine 6371 SF_LAT SF_LON lat lon <= RADIUS_KM ->
  (Z.abs ms <? 1000 * float_overflow)%Z = true ->
  wall_clock (ms / 1000) (utcoffset w (ms / 1000))
  = Ok (datetime_of_seconds (ms / 1000 + utcoffset w (ms / 1000))) ->
  wall_clock (ms / 1000 - 86400) (utcoffset w (ms / 1000 - 86400))
  = Ok (datetime_of_seconds (ms / 1000 - 86400 + utcoffset w (ms / 1000 - 86400))) ->
  loop_body w (feature_at lat lon mag ms) acc
  = Ok (acc ++ [info_at (utcoffset w (ms / 1000)) lat lon mag ms]).
Proof.
  intros Hd Hrange Hclock Hprobe. unfold loop_body, feature_at.
  cbn [py_getitem_str dict_lookup String.eqb Ascii.eqb Bool.eqb bind
       py_getitem_int nth_error].
  rewrite calculate_distance_floats. cbn [bind].
  rewrite (proj2 (float_leb_finite _ _) Hd).
  cbn [py_get dict_lookup String.eqb Ascii.eqb Bool.eqb bind py_truediv].
  unfold int_truediv. rewrite Hrange. cbn [bind].
  rewrite fromtimestamp_ms, Hclock, Hprobe.
  reflexivity.
Qed.

Lemma list_sort_reverse_singleton {A} position (key : A -> pyval) (x : A) :
  list_sort_reverse position key [x] = Ok [x].
Proof.
  unfold list_sort_reverse. cbn [map all_comparable forallb andb existsb orb].
  now destruct (has_nan (key x)).
Qed.

Lemma SF_distance_0 : haversine 6371 SF_LAT SF_LON SF_LAT SF_LON = 0.
Proof. apply haversine_refl. Qed.

(** A point [km] kilometers north of the reference point. *)
Lemma north_of_SF (km : R) :
  0 <= km <= 1000 ->
  haversine 6371 SF_LAT SF_LON (SF_LAT + km * 180 / (6371 * PI)) SF_LON = km.
Proof.
  intros Hkm. pose proof PI_bounds as HPI.
  rewrite haversine_meridian.
  - field. lra.
  - assert (Hq : 0 < / PI < / 3).
    { split; [apply Rinv_0_lt_compat; lra | apply Rinv_lt_contravar; lra]. }
    replace (km * 180 / (6371 * PI)) with (km * (180 / 6371) * / PI)
      by (field; lra).
    split.
    + apply Rmult_le_pos; [| lra]. apply Rmult_le_pos; lra.
    + assert (km * (180 / 6371) * / PI <= 1000 * (180 / 6371) * / PI).
      { apply Rmult_le_compat_r; [lra |]. apply Rmult_le_compat_r; lra. }
      lra.
Qed.


(** * The claims *)

(** ** Error handling *)

(** C1, as the specification states it, fails: the status 300 is not a
    success status, yet [raise_for_status] lets it pass, the body is
    decoded, and [get_earthquake] returns the record of the feature in it;
    the endpoint answers with count 1. *)
Lemma redirect_status_not_masked :
  let w := world_answering 300
             (feature_collection [feature_at SF_LAT SF_LON (PFloat 3) 0]) in
  (exists response,
      requests_get w (feed_request w) = Ok response
      /\ non_success_status response)
  /\ fst (get_earthquake w) = Ok [info_at 0 SF_LAT SF_LON (PFloat 3) 0]
  /\ fst (get_earthquake w) <> Ok []
  /\ exists response,
       fst (get_earthquakes_api w) = Ok response /\ count response = 1%nat.
Proof.
  cbv zeta.
  set (w := world_answering 300 _).
  assert (E : fst (get_earthquake w) = Ok [info_at 0 SF_LAT SF_LON (PFloat 3) 0]).
  { rewrite (get_earthquake_Ok w [info_at 0 SF_LAT SF_LON (PFloat 3) 0]);
      [reflexivity |].
    assert (Hfeed : feed_features w [feature_at SF_LAT SF_LON (PFloat 3) 0]).
    { eexists _, [("features"%string, PList _)]. repeat split; reflexivity. }
    rewrite (get_earthquake_features _ _ Hfeed).
    cbn [for_features].
    rewrite loop_body_feature_at;
      [| rewrite SF_distance_0; unfold RADIUS_KM; lra | reflexivity | reflexivity | reflexivity].
    apply list_sort_reverse_singleton. }
  split.
  { eexists. split; [reflexivity |]. unfold non_success_status. cbn. lia. }
  split; [exact E |].
  split; [rewrite E; discriminate |].
  rewrite get_earthquakes_api_fst, E. cbn [bind].
  eexists. split; reflexivity.
Qed.

(** C1 (amended): on every failure of the feed interaction (the request
    raises a network error or a timeout, the status is an error status 4xx
    or 5xx, the body does not decode, or the decoded payload is not an
    object with an array of features) [get_earthquake] returns the empty
    list and raises nothing, and the endpoint answers with status 200,
    count 0 and an empty list of earthquakes. *)
Theorem feed_failure_masked (w : World) :
  feed_failure w ->
  fst (get_earthquake w) = Ok []
  /\ exists response,
       fst (get_earthquakes_api w) = Ok response
       /\ http_status response = 200%Z
       /\ count response = 0%nat
       /\ earthquakes response = []
       /\ last_updated response
          = strftime_space_UTC (datetime_of_seconds (utcnow w 1)).
Proof.
  intros H. pose proof (feed_failure_empty w H) as E.
  split; [assumption |].
  rewrite get_earthquakes_api_fst, E. cbn [bind].
  eexists. split; [reflexivity |]. cbn. auto.
Qed.

Lemma feed_failure_masked_witness :
  feed_failure (world_raising Timeout)
  /\ fst (get_earthquake (world_raising Timeout)) = Ok [].
Proof.
  assert (H : feed_failure (world_raising Timeout))
    by (apply fail_request with (e := Timeout); reflexivity).
  split; [exact H | exact (proj1 (feed_failure_masked _ H))].
Defined.

(** C3, as the specification states it, fails: a feed whose only feature
    lacks its geometry is decoded, the feature is malformed, and yet
    [get_earthquake] returns the empty list instead of propagating. *)
Lemma malformed_feature_not_propagated :
  let w := world_with 0 (feature_collection [PDict []]) in
  feed_features w [PDict []]
  /\ malformed_feature (PDict [])
  /\ fst (get_earthquake w) = Ok []
  /\ ~ propagates_fault w.
Proof.
  cbv zeta. split; [apply world_with_features |].
  split; [now apply no_geometry |].
  assert (E : fst (get_earthquake (world_with 0 (feature_collection [PDict []])))
              = Ok []) by reflexivity.
  split; [exact E |].
  intros [e He]. rewrite E in He. discriminate.
Qed.

(** C3 (amended): if the feed decodes but holds a feature of malformed
    shape whose distance cannot be computed or lies within the radius,
    the fault is caught at the fetch boundary: [get_earthquake] returns
    the empty list, reports the fault on standard output and propagates
    nothing. *)
Theorem malformed_feature_masked (w : World) (features : list pyval) (f : pyval) :
  feed_features w features ->
  In f features ->
  malformed_feature f ->
  (forall d, feature_distance f = Ok d -> float_leb d RADIUS_KM = true) ->
  fst (get_earthquake w) = Ok []
  /\ (exists e, snd (get_earthquake w) = [ErrorFetching e])
  /\ ~ propagates_fault w.
Proof.
  intros Hfeed Hin Hbad Hnear.
  assert (Hloop : forall fs acc, In f fs -> exists e, for_features w fs acc = Raise e).
  { induction fs as [| f' fs IH]; intros acc Hf; [contradiction |].
    cbn [for_features].
    destruct (loop_body w f' acc) as [acc' | e] eqn:Hrun; cbn [bind].
    - destruct Hf as [-> | Hf]; [| now apply IH].
      destruct (malformed_feature_raises w f acc Hbad Hnear) as [e He].
      congruence.
    - now exists e. }
  destruct (Hloop features [] Hin) as [e He].
  assert (Htry : get_earthquake_try w = Raise e).
  { rewrite (get_earthquake_features _ _ Hfeed), He. reflexivity. }
  pose proof (for_features_Exception _ _ _ _ He) as Hexc.
  rewrite (get_earthquake_masked _ _ Htry Hexc). cbn [fst snd].
  split; [reflexivity |]. split; [now exists e |].
  intros [e' He']. unfold propagates_fault in *.
  rewrite (get_earthquake_masked _ _ Htry Hexc) in He'. discriminate.
Qed.

Lemma malformed_feature_masked_witness :
  fst (get_earthquake (world_with 0 (feature_collection [PDict []]))) = Ok [].
Proof.
  refine (proj1 (malformed_feature_masked
                   (world_with 0 (feature_collection [PDict []]))
                   [PDict []] (PDict []) _ _ _ _)).
  - apply world_with_features.
  - now left.
  - now apply no_geometry.
  - intros d Hd. discriminate Hd.
Defined.

(** ** The time field *)

(** C2 at a failing input: on a host eight hours behind UTC the record of
    a feature stamped with epoch millisecond 1699999000000 carries the
    local reading "2023-11-14 13:56:40 UTC", where the UTC rendering of
    the timestamp is "2023-11-14 21:56:40 UTC". *)
Theorem time_field_renders_local_time :
  let w := world_with (-28800)
             (feature_collection
                [feature_at SF_LAT SF_LON (PFloat 4.5) 1699999000000]) in
  exists info,
    fst (get_earthquake w) = Ok [info]
    /\ time info = "2023-11-14 13:56:40 UTC"%string
    /\ utc_time_string (PInt 1699999000000)
       = Ok "2023-11-14 21:56:40 UTC"%string.
Proof.
  cbv zeta.
  exists (info_at (-28800) SF_LAT SF_LON (PFloat 4.5) 1699999000000).
  split; [| split].
  - rewrite (get_earthquake_Ok _
               [info_at (-28800) SF_LAT SF_LON (PFloat 4.5) 1699999000000]);
      [reflexivity |].
    rewrite (get_earthquake_features _ _ (world_with_features _ _)).
    cbn [for_features].
    rewrite loop_body_feature_at;
      [| rewrite SF_distance_0; unfold RADIUS_KM; lra | reflexivity | reflexivity | reflexivity].
    apply list_sort_reverse_singleton.
  - reflexivity.
  - unfold utc_time_string. cbn [py_truediv]. unfold int_truediv.
    replace (Z.abs 1699999000000 <? 1000 * float_overflow)%Z with true
      by reflexivity.
    cbn [bind]. rewrite utcfromtimestamp_ms. reflexivity.
Qed.

(** ** The distance calculator *)

(** In exact arithmetic the distance is symmetric, zero from a point to
    itself, and never negative, for all real coordinates, in range or not. *)
Lemma calculate_distance_exact_properties (lat1 lon1 lat2 lon2 : R) :
  (exists d : R,
      calculate_distance (PFloat lat1) (PFloat lon1) (PFloat lat2) (PFloat lon2)
      = Ok (Finite d)
      /\ calculate_distance (PFloat lat2) (PFloat lon2) (PFloat lat1) (PFloat lon1)
         = Ok (Finite d)
      /\ 0 <= d)
  /\ calculate_distance (PFloat lat1) (PFloat lon1) (PFloat lat1) (PFloat lon1)
     = Ok (Finite 0).
Proof.
  split.
  - exists (haversine 6371 lat1 lon1 lat2 lon2).
    rewrite !calculate_distance_floats.
    split; [reflexivity |].
    split; [now rewrite haversine_sym |].
    apply haversine_nonneg. lra.
  - now rewrite calculate_distance_floats, haversine_refl.
Qed.

(** ** The loop over the features *)



(** C4: every record of a list that [get_earthquake] returns has a
    [distance_km] that is a number of at most 200; and when the feed holds
    one feature 50 km away and one 250 km away, the result is exactly the
    record of the first. *)
Theorem returned_records_within_radius :
  (forall w l,
      fst (get_earthquake w) = Ok l ->
      Forall (fun x => exists d : R, distance_km x = Finite d /\ d <= 200) l)
  /\ (forall w features f50 f250 info,
         feed_features w features ->
         features = [f50; f250] \/ features = [f250; f50] ->
         feature_distance f50 = Ok (Finite 50) ->
         feature_distance f250 = Ok (Finite 250) ->
         loop_body w f50 [] = Ok [info] ->
         fst (get_earthquake w) = Ok [info] /\ distance_km info = Finite 50).
Proof.
  split.
  - intros w l H.
    destruct (get_earthquake_try w) as [l0 | e] eqn:Htry.
    + rewrite (get_earthquake_Ok _ _ Htry) in H. injection H as <-.
      unfold get_earthquake_try in Htry.
      bind_ok Htry response Hresp. bind_ok Htry u Hstatus.
      bind_ok Htry data Hdata. bind_ok Htry features Hfeat.
      bind_ok Htry items Hitems. bind_ok Htry nearby Hnearby.
      apply (Permutation_Forall (list_sort_reverse_perm _ _ _ _ Htry)).
      eapply for_features_within_radius; [exact Hnearby | constructor].
    + unfold get_earthquake, try_except_Exception in H. rewrite Htry in H.
      destruct (is_Exception e); [| discriminate].
      injection H as <-. constructor.
  - intros w features f50 f250 info Hfeed Horder H50 H250 Hinfo.
    assert (Hfar : forall acc, loop_body w f250 acc = Ok acc).
    { intros acc. apply loop_body_far with (d := Finite 250); [assumption |].
      apply float_leb_finite_false. unfold RADIUS_KM. lra. }
    assert (Hloop : for_features w features [] = Ok [info]).
    { destruct Horder as [-> | ->]; cbn [for_features].
      - rewrite Hinfo. cbn [bind]. rewrite Hfar. reflexivity.
      - rewrite Hfar. cbn [bind]. rewrite Hinfo. reflexivity. }
    split.
    + rewrite (get_earthquake_Ok _ [info]); [reflexivity |].
      rewrite (get_earthquake_features _ _ Hfeed), Hloop. cbn [bind].
      apply list_sort_reverse_singleton.
    + destruct (loop_body_inv _ _ _ _ Hinfo)
        as (geometry & coords & lon & lat & distance
            & Hg & Hc & Hlon & Hlat & Hd & Hcases).
      rewrite (feature_distance_of_parts _ _ _ _ _ Hg Hc Hlon Hlat) in H50.
      rewrite H50 in Hd. injection Hd as <-.
      destruct Hcases as [[Hfar' _] | [_ Hin]].
      { apply float_leb_finite_false in Hfar'. unfold RADIUS_KM in Hfar'. lra. }
      destruct Hin as (properties & ms & ts & dt & depth & info'
                       & _ & _ & _ & _ & _ & _ & _ & _ & Hdist & Heq).
      cbn [app] in Heq. injection Heq as ->. rewrite Hdist.
      cbn [float_round1]. f_equal.
      replace 50 with (IZR 500 / 10) by lra. apply round1_tenths.
Qed.

Lemma returned_records_within_radius_witness :
  let f50 := feature_at (SF_LAT + 50 * 180 / (6371 * PI)) SF_LON (PFloat 3) 0 in
  let f250 := feature_at (SF_LAT + 250 * 180 / (6371 * PI)) SF_LON (PFloat 4) 0 in
  let w := world_with 0 (feature_collection [f50; f250]) in
  (exists info, fst (get_earthquake w) = Ok [info] /\ distance_km info = Finite 50)
  /\ (forall l, fst (get_earthquake w) = Ok l
                -> Forall (fun x => exists d : R, distance_km x = Finite d /\ d <= 200) l).
Proof.
  cbv zeta.
  set (f50 := feature_at (SF_LAT + 50 * 180 / (6371 * PI)) SF_LON (PFloat 3) 0).
  set (f250 := feature_at (SF_LAT + 250 * 180 / (6371 * PI)) SF_LON (PFloat 4) 0).
  set (w := world_with 0 (feature_collection [f50; f250])).
  split.
  - exists (info_at 0 (SF_LAT + 50 * 180 / (6371 * PI)) SF_LON (PFloat 3) 0).
    apply (proj2 returned_records_within_radius w [f50; f250] f50 f250).
    + apply world_with_features.
    + now left.
    + unfold f50. rewrite feature_distance_feature_at, north_of_SF; [reflexivity | lra].
    + unfold f250. rewrite feature_distance_feature_at, north_of_SF; [reflexivity | lra].
    + unfold f50. apply (loop_body_feature_at w _ _ _ _ []); [| reflexivity | reflexivity | reflexivity].
      rewrite north_of_SF; unfold RADIUS_KM; lra.
  - intros l H. exact (proj1 returned_records_within_radius w l H).
Defined.

(** ** The distance calculator in both arithmetics *)

Section DistanceCalculator.
Import PrimFloat.
Local Open Scope float_scope.
#[local] Set Warnings "-inexact-float".

Lemma py_sin_finite (m : Binary64.libm) (x : float) :
  is_infinity x = false -> Binary64.py_sin m x = Ok (Binary64.c_sin m x).
Proof. unfold Binary64.py_sin. now intros ->. Qed.

Lemma py_cos_finite (m : Binary64.libm) (x : float) :
  is_infinity x = false -> Binary64.py_cos m x = Ok (Binary64.c_cos m x).
Proof. unfold Binary64.py_cos. now intros ->. Qed.

(** Between (8, 0) and its antipode (-8, 180) the sum under the square
    roots rounds to 1.0000000000000002, and the second square root is
    refused. *)
Lemma antipodal_domain_error (m : Binary64.libm) :
  Binary64.c_sin m (-0.13962634015954636) = -0.13917310096006544 ->
  Binary64.c_sin m 1.5707963267948966 = 1 ->
  Binary64.c_cos m 0.13962634015954636 = 0.9902680687415704 ->
  Binary64.c_cos m (-0.13962634015954636) = 0.9902680687415704 ->
  (forall x, Binary64.c_pow m x 2 = x * x) ->
  Binary64.calculate_distance m 8 0 (-8) 180 = Raise ValueError.
Proof.
  intros Hs1 Hs2 Hc1 Hc2 Hpow.
  unfold Binary64.calculate_distance.
  replace (Binary64.radians 8) with 0.13962634015954636
    by (vm_compute; reflexivity).
  replace (Binary64.radians (-8)) with (-0.13962634015954636)
    by (vm_compute; reflexivity).
  replace (Binary64.radians 180) with 3.141592653589793
    by (vm_compute; reflexivity).
  replace (Binary64.radians 0) with 0 by (vm_compute; reflexivity).
  replace ((-0.13962634015954636 - 0.13962634015954636) / 2)
    with (-0.13962634015954636) by (vm_compute; reflexivity).
  replace ((3.141592653589793 - 0) / 2) with 1.5707963267948966
    by (vm_compute; reflexivity).
  rewrite !py_sin_finite, !py_cos_finite by (vm_compute; reflexivity).
  cbn [bind]. rewrite !Hpow, Hs1, Hs2, Hc1, Hc2.
  vm_compute. reflexivity.
Qed.

(** The great-circle distance between (8, 0) and (-8, 180): half the
    circumference. *)
Lemma haversine_antipode : haversine 6371%R 8%R 0%R (-8)%R 180%R = (6371 * PI)%R.
Proof.
  rewrite haversine_hav_a. cbv zeta.
  assert (Ha : hav_a (8 * (PI / 180)) (0 * (PI / 180))
                     (-8 * (PI / 180)) (180 * (PI / 180)) = 1%R).
  { unfold hav_a.
    replace ((-8 * (PI / 180) - 8 * (PI / 180)) / 2)%R
      with (- (8 * (PI / 180)))%R by field.
    replace ((180 * (PI / 180) - 0 * (PI / 180)) / 2)%R with (PI / 2)%R by field.
    replace (-8 * (PI / 180))%R with (- (8 * (PI / 180)))%R by field.
    rewrite sin_neg, cos_neg, sin_PI2.
    pose proof (sin2_cos2 (8 * (PI / 180))) as E. unfold Rsqr in E.
    cbn [pow]. lra. }
  rewrite Ha. replace (1 - 1)%R with 0%R by ring.
  rewrite sqrt_1, sqrt_0, atan2_1_0. field.
Qed.

(** C6 at a failing input.  Whatever [calculate_distance] returns is the
    value of the haversine formula with Earth radius 6371 km, computed in
    binary64 step for step, and the only exception it raises on floats is
    [ValueError]; but it does not return on every two pairs: between
    (8, 0) and (-8, 180), where the formula gives half the circumference,
    6371 pi km, the call raises [ValueError].  The C library is any that
    returns the correctly rounded sine and cosine at the four arguments
    met and the correctly rounded square. *)
Theorem calculate_distance_haversine_unless_domain_error :
  (forall (m : Binary64.libm) (lat1 lon1 lat2 lon2 d : float),
      Binary64.calculate_distance m lat1 lon1 lat2 lon2 = Ok d ->
      d = Binary64.haversine m 6371 lat1 lon1 lat2 lon2)
  /\ (forall (m : Binary64.libm) (lat1 lon1 lat2 lon2 : float) (e : exn),
         Binary64.calculate_distance m lat1 lon1 lat2 lon2 = Raise e ->
         e = ValueError)
  /\ (forall m : Binary64.libm,
         Binary64.c_sin m (-0.13962634015954636) = -0.13917310096006544 ->
         Binary64.c_sin m 1.5707963267948966 = 1 ->
         Binary64.c_cos m 0.13962634015954636 = 0.9902680687415704 ->
         Binary64.c_cos m (-0.13962634015954636) = 0.9902680687415704 ->
         (forall x, Binary64.c_pow m x 2 = x * x) ->
         Binary64.calculate_distance m 8 0 (-8) 180 = Raise ValueError
         /\ haversine 6371%R 8%R 0%R (-8)%R 180%R = (6371 * PI)%R).
Proof.
  split; [| split].
  - intros m lat1 lon1 lat2 lon2 d H.
    unfold Binary64.calculate_distance, Binary64.py_sin, Binary64.py_cos,
      Binary64.py_sqrt in H.
    repeat match type of H with
           | context [if ?c then _ else _] =>
               destruct c; cbn [bind] in H; try discriminate H
           end.
    injection H as <-. reflexivity.
  - intros m lat1 lon1 lat2 lon2 e H.
    unfold Binary64.calculate_distance, Binary64.py_sin, Binary64.py_cos,
      Binary64.py_sqrt in H.
    repeat match type of H with
           | context [if ?c then _ else _] =>
               destruct c; cbn [bind] in H; try (now injection H as <-)
           end.
    discriminate H.
  - intros m Hs1 Hs2 Hc1 Hc2 Hpow.
    split; [now apply antipodal_domain_error | apply haversine_antipode].
Qed.

Lemma calculate_distance_haversine_unless_domain_error_witness :
  Binary64.calculate_distance Binary64.tabulated_libm 8 0 (-8) 180
  = Raise ValueError
  /\ haversine 6371%R 8%R 0%R (-8)%R 180%R = (6371 * PI)%R.
Proof.
  apply (proj2 (proj2 calculate_distance_haversine_unless_domain_error)
           Binary64.tabulated_libm);
    try (intros x); vm_compute; reflexivity.
Defined.

(** C7 at a failing input: between (8, 0) and its antipode (-8, 180) the
    sum under the square roots rounds to 1.0000000000000002, so
    [math.sqrt] is applied to a negative number and the call raises
    [ValueError] where a non-negative distance is expected.  The C library
    is any that returns the correctly rounded sine and cosine at the four
    arguments met and the correctly rounded square. *)
Theorem binary64_antipodal_domain_error (m : Binary64.libm) :
  Binary64.c_sin m (-0.13962634015954636) = -0.13917310096006544 ->
  Binary64.c_sin m 1.5707963267948966 = 1 ->
  Binary64.c_cos m 0.13962634015954636 = 0.9902680687415704 ->
  Binary64.c_cos m (-0.13962634015954636) = 0.9902680687415704 ->
  (forall x, Binary64.c_pow m x 2 = x * x) ->
  Binary64.calculate_distance m 8 0 (-8) 180 = Raise ValueError.
Proof.
  intros Hs1 Hs2 Hc1 Hc2 Hpow.
  unfold Binary64.calculate_distance.
  replace (Binary64.radians 8) with 0.13962634015954636
    by (vm_compute; reflexivity).
  replace (Binary64.radians (-8)) with (-0.13962634015954636)
    by (vm_compute; reflexivity).
  replace (Binary64.radians 180) with 3.141592653589793
    by (vm_compute; reflexivity).
  replace (Binary64.radians 0) with 0 by (vm_compute; reflexivity).
  replace ((-0.13962634015954636 - 0.13962634015954636) / 2)
    with (-0.13962634015954636) by (vm_compute; reflexivity).
  replace ((3.141592653589793 - 0) / 2) with 1.5707963267948966
    by (vm_compute; reflexivity).
  rewrite !py_sin_finite, !py_cos_finite by (vm_compute; reflexivity).
  cbn [bind]. rewrite !Hpow, Hs1, Hs2, Hc1, Hc2.
  vm_compute. reflexivity.
Qed.

Lemma binary64_antipodal_domain_error_witness :
  Binary64.calculate_distance Binary64.tabulated_libm 8 0 (-8) 180
  = Raise ValueError.
Proof.
  apply (binary64_antipodal_domain_error Binary64.tabulated_libm);
    try (intros x); vm_compute; reflexivity.
Defined.

(** C9: from San Francisco to Los Angeles [calculate_distance] returns a
    value within 5 km of 559 km: in exact arithmetic, and in binary64
    (where it is 559.1205770615534) with a C library that returns the
    correctly rounded sine, cosine, square and arc tangent at the
    arguments met. *)
Theorem SF_to_LA_distance :
  (exists d : R,
      calculate_distance (PFloat 37.7749%R) (PFloat (-122.4194)%R)
                         (PFloat 34.0522%R) (PFloat (-118.2437)%R)
      = Ok (Finite d)
      /\ (Rabs (d - 559) <= 5)%R)
  /\ (forall m : Binary64.libm,
         Binary64.c_sin m (-0.0324866860319965) = -0.03248097200792211 ->
         Binary64.c_sin m 0.036439856787763514 = 0.03643179279926197 ->
         Binary64.c_cos m 0.659296379611606 = 0.790423437423964 ->
         Binary64.c_cos m 0.594323007547613 = 0.828527769228899 ->
         (forall x, Binary64.c_pow m x 2 = x * x) ->
         Binary64.c_atan2 m 0.043866046651582995 0.999037421697086
         = 0.043880126907985664 ->
         exists d : float,
           Binary64.calculate_distance m 37.7749 (-122.4194) 34.0522 (-118.2437)
           = Ok d
           /\ d = 559.1205770615534
           /\ (abs (d - 559) <=? 5) = true).
Proof.
  split.
  - eexists. split; [apply calculate_distance_floats |].
    pose proof SF_LA_distance as [Hlo Hhi].
    apply Rabs_le. lra.
  - intros m Hs1 Hs2 Hc1 Hc2 Hpow Hat.
    exists 559.1205770615534.
    split; [| split; [reflexivity | vm_compute; reflexivity]].
    unfold Binary64.calculate_distance.
    replace (Binary64.radians 37.7749) with 0.659296379611606
      by (vm_compute; reflexivity).
    replace (Binary64.radians 34.0522) with 0.594323007547613
      by (vm_compute; reflexivity).
    replace (Binary64.radians (-122.4194)) with (-2.136621598315946)
      by (vm_compute; reflexivity).
    replace (Binary64.radians (-118.2437)) with (-2.063741884740419)
      by (vm_compute; reflexivity).
    replace ((0.594323007547613 - 0.659296379611606) / 2)
      with (-0.0324866860319965) by (vm_compute; reflexivity).
    replace ((-2.063741884740419 - -2.136621598315946) / 2)
      with 0.036439856787763514 by (vm_compute; reflexivity).
    rewrite !py_sin_finite, !py_cos_finite by (vm_compute; reflexivity).
    cbn [bind]. rewrite !Hpow, Hs1, Hs2, Hc1, Hc2.
    replace (Binary64.py_sqrt _) with (Ok 0.043866046651582995)
      by (vm_compute; reflexivity).
    cbn [bind].
    replace (Binary64.py_sqrt _) with (Ok 0.999037421697086)
      by (vm_compute; reflexivity).
    cbn [bind]. rewrite Hat. vm_compute. reflexivity.
Qed.

Lemma SF_to_LA_distance_witness :
  exists d : float,
    Binary64.calculate_distance Binary64.tabulated_libm
      37.7749 (-122.4194) 34.0522 (-118.2437) = Ok d
    /\ d = 559.1205770615534
    /\ (abs (d - 559) <=? 5) = true.
Proof.
  apply (proj2 SF_to_LA_distance Binary64.tabulated_libm);
    try (intros x); vm_compute; reflexivity.
Defined.

End DistanceCalculator.

(** ** Sorting by magnitude *)

Lemma py_truthy_float (r : R) : r <> 0 -> py_truthy (PFloat (Finite r)) = true.
Proof.
  intros H. cbn. unfold Req_bool. destruct (Req_dec_T r 0); [contradiction | reflexivity].
Qed.

Lemma float_ltb_finite (x y : R) : float_ltb (Finite x) (Finite y) = true <-> x < y.
Proof.
  cbn [float_ltb]. unfold Rlt_bool. destruct (Rlt_dec x y); split; auto; discriminate.
Qed.

Lemma float_ltb_finite_false (x y : R) :
  float_ltb (Finite x) (Finite y) = false <-> y <= x.
Proof.
  cbn [float_ltb]. unfold Rlt_bool.
  destruct (Rlt_dec x y); split; intros; try lra; try discriminate; reflexivity.
Qed.

Lemma list_sort_reverse_3_0_55 {A} position (key : A -> pyval) (a b c : A) :
  key a = PFloat 3 -> key b = PInt 0 -> key c = PFloat 5.5 ->
  list_sort_reverse position key [a; b; c] = Ok [c; a; b].
Proof.
  intros Ha Hb Hc. unfold list_sort_reverse. cbn [map]. rewrite Ha, Hb, Hc.
  replace (all_comparable [PFloat 3; PInt 0; PFloat 5.5]) with true by reflexivity.
  replace (existsb has_nan [PFloat 3; PInt 0; PFloat 5.5]) with false by reflexivity.
  assert (L1 : py_ltb (PInt 0) (PFloat 5.5) = true).
  { unfold py_ltb. cbn [py_lt num_value].
    now rewrite (proj2 (float_ltb_finite _ _)) by lra. }
  assert (L2 : py_ltb (PFloat 3) (PFloat 5.5) = true).
  { unfold py_ltb. cbn [py_lt num_value].
    now rewrite (proj2 (float_ltb_finite _ _)) by lra. }
  assert (L3 : py_ltb (PFloat 3) (PInt 0) = false).
  { unfold py_ltb. cbn [py_lt num_value].
    now rewrite (proj2 (float_ltb_finite_false _ _)) by lra. }
  cbn [fold_right insert_desc]. rewrite Hb, Hc, L1.
  cbn [insert_desc]. rewrite Ha, Hb, Hc, L2, L3.
  reflexivity.
Qed.

(** A NaN between 3.0 and 5.5: no key is below the next, the list is one
    run, and it stays as it is. *)
Lemma list_sort_reverse_3_nan_55 {A} position (key : A -> pyval) (a b c : A) :
  key a = PFloat 3 -> key b = PFloat NaN -> key c = PFloat 5.5 ->
  list_sort_reverse position key [a; b; c] = Ok [a; b; c].
Proof.
  intros Ha Hb Hc. apply list_sort_reverse_run;
    cbn [map no_ascent]; rewrite Ha, Hb, Hc; reflexivity.
Qed.

Lemma no_nan_keys_existsb {A} (key : A -> pyval) (l : list A) :
  Forall (fun a => has_nan (key a) = false) l ->
  existsb has_nan (map key l) = false.
Proof.
  induction 1 as [| a l Ha Hl IH]; [reflexivity |].
  cbn [map existsb]. now rewrite Ha, IH.
Qed.

(** With no NaN among the magnitudes, the returned list is in order. *)
Lemma get_earthquake_sorted w l :
  fst (get_earthquake w) = Ok l ->
  Forall (fun i => has_nan (magnitude i) = false) l ->
  StronglySorted magnitude_ge l.
Proof.
  intros H Hnan.
  destruct (get_earthquake_try w) as [l0 | e] eqn:Htry.
  - rewrite (get_earthquake_Ok _ _ Htry) in H. injection H as <-.
    unfold get_earthquake_try in Htry.
    bind_ok Htry response Hresp. bind_ok Htry u Hstatus.
    bind_ok Htry data Hdata. bind_ok Htry features Hfeat.
    bind_ok Htry items Hitems. bind_ok Htry nearby Hnearby.
    apply StronglySorted_impl with (P := key_ge sort_key).
    + apply key_ge_magnitude_ge.
    + eapply list_sort_reverse_sorted; [exact Htry |].
      apply no_nan_keys_existsb.
      apply (Permutation_Forall
               (Permutation_sym (list_sort_reverse_perm _ _ _ _ Htry))).
      eapply Forall_impl; [| exact Hnan].
      intros i. apply sort_key_has_nan.
  - unfold get_earthquake, try_except_Exception in H. rewrite Htry in H.
    destruct (is_Exception e); [| discriminate].
    injection H as <-. constructor.
Qed.

(** C5 at a failing input.  A feed whose accepted features carry the
    magnitudes 3.0, NaN and 5.5 comes back in that very order, the record
    of magnitude 5.5 last: the list is not sorted by magnitude, highest
    first.  Away from NaN the claim holds: a returned list without a NaN
    among its magnitudes is sorted, highest first, an absent magnitude
    counting as 0 in the order while the record keeps its [None], so
    that the magnitudes 3.0, absent and 5.5 come back as 5.5, 3.0,
    absent. *)
Theorem magnitude_order_broken_by_nan :
  (forall w f1 f2 f3 i1 i2 i3,
      feed_features w [f1; f2; f3] ->
      loop_body w f1 [] = Ok [i1] ->
      loop_body w f2 [] = Ok [i2] ->
      loop_body w f3 [] = Ok [i3] ->
      magnitude i1 = PFloat 3 ->
      magnitude i2 = PFloat NaN ->
      magnitude i3 = PFloat 5.5 ->
      fst (get_earthquake w) = Ok [i1; i2; i3]
      /\ ~ StronglySorted magnitude_ge [i1; i2; i3])
  /\ (forall w l,
         fst (get_earthquake w) = Ok l ->
         Forall (fun i => has_nan (magnitude i) = false) l ->
         StronglySorted magnitude_ge l)
  /\ (forall w f1 f2 f3 i1 i2 i3,
         feed_features w [f1; f2; f3] ->
         loop_body w f1 [] = Ok [i1] ->
         loop_body w f2 [] = Ok [i2] ->
         loop_body w f3 [] = Ok [i3] ->
         magnitude i1 = PFloat 3 ->
         magnitude i2 = PNone ->
         magnitude i3 = PFloat 5.5 ->
         fst (get_earthquake w) = Ok [i3; i1; i2]
         /\ map magnitude [i3; i1; i2] = [PFloat 5.5; PFloat 3; PNone]).
Proof.
  split; [| split].
  - intros w f1 f2 f3 i1 i2 i3 Hfeed H1 H2 H3 M1 M2 M3.
    split.
    + rewrite (get_earthquake_Ok _ [i1; i2; i3]); [reflexivity |].
      rewrite (get_earthquake_features _ _ Hfeed).
      rewrite for_features_cons, H1. cbn [bind].
      rewrite for_features_cons, H2. cbn [bind].
      rewrite for_features_cons, H3. cbn [bind for_features app].
      apply list_sort_reverse_3_nan_55; unfold sort_key.
      * rewrite M1, py_truthy_float; [reflexivity | lra].
      * now rewrite M2.
      * rewrite M3, py_truthy_float; [reflexivity | lra].
    + intros Hs. inversion Hs as [| ? ? _ Hall]; subst.
      inversion Hall as [| ? ? _ Hall']; subst.
      inversion Hall' as [| ? ? Hge _]; subst.
      specialize (Hge (Finite 3) (Finite 5.5)).
      unfold magnitude_or_0 in Hge. rewrite M1, M3 in Hge.
      specialize (Hge eq_refl eq_refl).
      apply float_leb_finite in Hge. lra.
  - apply get_earthquake_sorted.
  - intros w f1 f2 f3 i1 i2 i3 Hfeed H1 H2 H3 M1 M2 M3.
    split; [| cbn [map]; now rewrite M1, M2, M3].
    rewrite (get_earthquake_Ok _ [i3; i1; i2]); [reflexivity |].
    rewrite (get_earthquake_features _ _ Hfeed).
    rewrite for_features_cons, H1. cbn [bind].
    rewrite for_features_cons, H2. cbn [bind].
    rewrite for_features_cons, H3. cbn [bind for_features app].
    apply list_sort_reverse_3_0_55; unfold sort_key.
    + rewrite M1, py_truthy_float; [reflexivity | lra].
    + now rewrite M2.
    + rewrite M3, py_truthy_float; [reflexivity | lra].
Qed.

Lemma magnitude_order_broken_by_nan_witness :
  let f1 := feature_at SF_LAT SF_LON (PFloat 3) 0 in
  let f2 := feature_at SF_LAT SF_LON (PFloat NaN) 0 in
  let f2' := feature_at SF_LAT SF_LON PNone 0 in
  let f3 := feature_at SF_LAT SF_LON (PFloat 5.5) 0 in
  let i1 := info_at 0 SF_LAT SF_LON (PFloat 3) 0 in
  let i2 := info_at 0 SF_LAT SF_LON (PFloat NaN) 0 in
  let i2' := info_at 0 SF_LAT SF_LON PNone 0 in
  let i3 := info_at 0 SF_LAT SF_LON (PFloat 5.5) 0 in
  (fst (get_earthquake (world_with 0 (feature_collection [f1; f2; f3])))
   = Ok [i1; i2; i3]
   /\ ~ StronglySorted magnitude_ge [i1; i2; i3])
  /\ (fst (get_earthquake (world_with 0 (feature_collection [f1; f2'; f3])))
      = Ok [i3; i1; i2']
      /\ map magnitude [i3; i1; i2'] = [PFloat 5.5; PFloat 3; PNone]
      /\ StronglySorted magnitude_ge [i3; i1; i2']).
Proof.
  intros f1 f2 f2' f3 i1 i2 i2' i3.
  assert (Hnear : haversine 6371 SF_LAT SF_LON SF_LAT SF_LON <= RADIUS_KM)
    by (rewrite SF_distance_0; unfold RADIUS_KM; lra).
  assert (Hloop : forall body mag,
             loop_body (world_with 0 body) (feature_at SF_LAT SF_LON mag 0) []
             = Ok [info_at 0 SF_LAT SF_LON mag 0]).
  { intros body mag.
    apply (loop_body_feature_at (world_with 0 body) _ _ _ _ []);
      [exact Hnear | reflexivity | reflexivity | reflexivity]. }
  split.
  - apply (proj1 magnitude_order_broken_by_nan _ f1 f2 f3);
      try reflexivity; try apply Hloop.
    apply world_with_features.
  - assert (H : fst (get_earthquake (world_with 0 (feature_collection [f1; f2'; f3])))
                = Ok [i3; i1; i2']
                /\ map magnitude [i3; i1; i2'] = [PFloat 5.5; PFloat 3; PNone]).
    { apply (proj2 (proj2 magnitude_order_broken_by_nan) _ f1 f2' f3);
        try reflexivity; try apply Hloop.
      apply world_with_features. }
    destruct H as [Hret Hmags].
    split; [exact Hret |]. split; [exact Hmags |].
    apply (proj1 (proj2 magnitude_order_broken_by_nan) _ _ Hret).
    repeat constructor.
Defined.

(** ** The endpoint *)

(** C10: whenever the endpoint answers, on the success path as on the
    masked-failure path, its count is the length of its list of
    earthquakes, which is the list [get_earthquake] returned; it fails to
    answer only when [get_earthquake] lets through an exception that is
    not an [Exception]. *)
Theorem api_count_is_length (w : World) :
  match fst (get_earthquake w), fst (get_earthquakes_api w) with
  | Ok l, Ok response =>
      earthquakes response = l
      /\ count response = List.length (earthquakes response)
      /\ http_status response = 200%Z
  | Raise e, Raise e' => e' = e /\ is_Exception e = false
  | _, _ => False
  end.
Proof.
  rewrite get_earthquakes_api_fst.
  unfold get_earthquake, try_except_Exception.
  destruct (get_earthquake_try w) as [l | e]; cbn [fst bind].
  - cbn. auto.
  - destruct (is_Exception e) eqn:He; cbn [fst bind]; cbn; auto.
Qed.

(** * Further properties *)

(** ** More on the distance calculator *)

Lemma py_float_conversion (x : pyval) :
  match conversion_error x with
  | Some e => py_float x = Raise e
  | None => exists f, py_float x = Ok f
  end.
Proof.
  destruct x as [| b | z | f | s | l | d]; cbn [conversion_error py_float];
    try reflexivity; eauto.
  destruct (Z.abs z <? float_overflow)%Z; [eauto | reflexivity].
Qed.

Lemma py_sin_ValueError x e : py_sin x = Raise e -> e = ValueError.
Proof. destruct x; cbn; try discriminate; now intros [= <-]. Qed.

Lemma py_cos_ValueError x e : py_cos x = Raise e -> e = ValueError.
Proof. destruct x; cbn; try discriminate; now intros [= <-]. Qed.

Lemma py_sqrt_ValueError x e : py_sqrt x = Raise e -> e = ValueError.
Proof.
  destruct x as [r | | [|]]; cbn [py_sqrt]; try discriminate;
    try (now intros [= <-]).
  destruct (Rle_dec 0 r); [discriminate | now intros [= <-]].
Qed.

(** X1: [calculate_distance] converts its four arguments to floats in the
    order lat1, lon1, lat2, lon2 before it computes anything: the first
    argument that does not convert decides the exception, [TypeError] when
    it is not a number and [OverflowError] when it is an int of magnitude
    2^1024 - 2^970 or more; when all four convert, the call raises nothing
    but [ValueError]. *)
Theorem calculate_distance_conversion_errors (lat1 lon1 lat2 lon2 : pyval) :
  match first_conversion_error [lat1; lon1; lat2; lon2] with
  | Some e => calculate_distance lat1 lon1 lat2 lon2 = Raise e
  | None =>
      forall e, calculate_distance lat1 lon1 lat2 lon2 = Raise e -> e = ValueError
  end.
Proof.
  cbn [first_conversion_error]. unfold calculate_distance, radians.
  pose proof (py_float_conversion lat1) as C1.
  destruct (conversion_error lat1) as [e1 |]; [now rewrite C1 |].
  destruct C1 as [f1 ->]. cbn [bind].
  pose proof (py_float_conversion lon1) as C2.
  destruct (conversion_error lon1) as [e2 |]; [now rewrite C2 |].
  destruct C2 as [f2 ->]. cbn [bind].
  pose proof (py_float_conversion lat2) as C3.
  destruct (conversion_error lat2) as [e3 |]; [now rewrite C3 |].
  destruct C3 as [f3 ->]. cbn [bind].
  pose proof (py_float_conversion lon2) as C4.
  destruct (conversion_error lon2) as [e4 |]; [now rewrite C4 |].
  destruct C4 as [f4 ->]. cbn [bind].
  intros e H.
  repeat (bind_case H;
          [| injection H as <-;
             eauto using py_sin_ValueError, py_cos_ValueError, py_sqrt_ValueError]).
  discriminate.
Qed.

Lemma atan2_le_PI2 (y x : R) : 0 <= y -> 0 <= x -> atan2 y x <= PI / 2.
Proof.
  intros Hy Hx. unfold atan2. pose proof PI_RGT_0.
  destruct (Rlt_dec 0 x).
  - left. apply atan_bound.
  - destruct (Rlt_dec x 0); [lra |].
    destruct (Rlt_dec 0 y); [lra |].
    destruct (Rlt_dec y 0); lra.
Qed.

(** X2: in exact arithmetic the distance between any two coordinate
    pairs lies between 0 and half the circumference, pi times 6371 km. *)
Theorem calculate_distance_at_most_half_circumference (lat1 lon1 lat2 lon2 : R) :
  exists d : R,
    calculate_distance (PFloat lat1) (PFloat lon1) (PFloat lat2) (PFloat lon2)
    = Ok (Finite d)
    /\ 0 <= d <= 6371 * PI.
Proof.
  eexists. split; [apply calculate_distance_floats |].
  split; [apply haversine_nonneg; lra |].
  rewrite haversine_hav_a. cbv zeta.
  pose proof (atan2_le_PI2 _ _ (sqrt_pos (hav_a (lat1 * (PI / 180)) (lon1 * (PI / 180))
                                            (lat2 * (PI / 180)) (lon2 * (PI / 180))))
                (sqrt_pos (1 - hav_a (lat1 * (PI / 180)) (lon1 * (PI / 180))
                                 (lat2 * (PI / 180)) (lon2 * (PI / 180))))).
  lra.
Qed.

Lemma sin_sq_shift_PI (x : R) : sin (x + PI) ^ 2 = sin x ^ 2.
Proof. rewrite neg_sin. ring. Qed.

Lemma hav_a_lon_period (p1 l1 p2 l2 : R) :
  hav_a p1 l1 p2 (l2 + 2 * PI) = hav_a p1 l1 p2 l2.
Proof.
  unfold hav_a.
  replace ((l2 + 2 * PI - l1) / 2) with ((l2 - l1) / 2 + PI) by field.
  now rewrite sin_sq_shift_PI.
Qed.

Lemma haversine_lon_period (r lat1 lon1 lat2 lon2 : R) :
  haversine r lat1 lon1 lat2 (lon2 + 360) = haversine r lat1 lon1 lat2 lon2.
Proof.
  rewrite !haversine_hav_a. cbv zeta.
  replace ((lon2 + 360) * (PI / 180)) with (lon2 * (PI / 180) + 2 * PI) by field.
  now rewrite hav_a_lon_period.
Qed.

(** X3: in exact arithmetic adding 360 degrees to either longitude does
    not change the distance. *)
Theorem calculate_distance_longitude_period (lat1 lon1 lat2 lon2 : R) :
  calculate_distance (PFloat lat1) (PFloat lon1) (PFloat lat2) (PFloat (lon2 + 360))
  = calculate_distance (PFloat lat1) (PFloat lon1) (PFloat lat2) (PFloat lon2)
  /\ calculate_distance (PFloat lat1) (PFloat (lon1 + 360)) (PFloat lat2) (PFloat lon2)
     = calculate_distance (PFloat lat1) (PFloat lon1) (PFloat lat2) (PFloat lon2).
Proof.
  rewrite !calculate_distance_floats. split.
  - now rewrite haversine_lon_period.
  - rewrite (haversine_sym _ lat1 (lon1 + 360)), haversine_lon_period.
    now rewrite haversine_sym.
Qed.

(** X4: in exact arithmetic the distance between two points of one
    meridian that are [delta] degrees of latitude apart, for [delta]
    below 180, is 6371 times [delta] in radians. *)
Theorem calculate_distance_along_meridian (lat lon delta : R) :
  0 <= delta < 180 ->
  calculate_distance (PFloat lat) (PFloat lon) (PFloat (lat + delta)) (PFloat lon)
  = Ok (Finite (6371 * (delta * (PI / 180)))).
Proof.
  intros H. rewrite calculate_distance_floats. now rewrite haversine_meridian.
Qed.

Lemma calculate_distance_along_meridian_witness :
  calculate_distance (PFloat 10) (PFloat 20) (PFloat (10 + 1)) (PFloat 20)
  = Ok (Finite (6371 * (1 * (PI / 180)))).
Proof. apply calculate_distance_along_meridian. lra. Defined.

(** ** More on the fetcher *)



(** X6: when the decoded object has no "features" member, or an empty
    array of features, [get_earthquake] returns the empty list and prints
    nothing. *)
Theorem no_features_silent (w : World) (response : Response)
    (d : list (string * pyval)) :
  requests_get w (feed_request w) = Ok response ->
  raise_for_status response = Ok tt ->
  json_body response = Some (PDict d) ->
  dict_lookup "features" d = None \/ dict_lookup "features" d = Some (PList []) ->
  get_earthquake w = (Ok [], []).
Proof.
  intros Hget Hstatus Hbody Hfeat.
  apply get_earthquake_Ok.
  unfold get_earthquake_try, response_json, py_get.
  rewrite Hget. cbn [bind]. rewrite Hstatus. cbn [bind].
  rewrite Hbody. cbn [bind].
  destruct Hfeat as [-> | ->]; reflexivity.
Qed.

Lemma no_features_silent_witness :
  get_earthquake (world_with 0 (PDict [])) = (Ok [], []).
Proof.
  apply (no_features_silent (world_with 0 (PDict []))
           {| status_code := 200; json_body := Some (PDict []) |} []);
    try reflexivity.
  now left.
Defined.

(** X7: the endpoint's answer after a failure of the feed is the answer
    it gives for a feed without features at the same clock reading: a
    client cannot tell the two apart. *)
Theorem failure_looks_like_no_earthquakes (w w' : World) :
  feed_failure w ->
  feed_features w' [] ->
  utcnow w 1%nat = utcnow w' 1%nat ->
  fst (get_earthquakes_api w) = fst (get_earthquakes_api w').
Proof.
  intros Hfail Hempty Hclock.
  rewrite !get_earthquakes_api_fst.
  rewrite (feed_failure_empty w Hfail).
  rewrite (get_earthquake_Ok w' []).
  - cbn [fst bind]. now rewrite Hclock.
  - now rewrite (get_earthquake_features _ _ Hempty).
Qed.

Lemma failure_looks_like_no_earthquakes_witness :
  fst (get_earthquakes_api (world_raising Timeout))
  = fst (get_earthquakes_api (world_with 0 (feature_collection []))).
Proof.
  apply failure_looks_like_no_earthquakes.
  - apply fail_request with (e := Timeout); reflexivity.
  - apply world_with_features.
  - reflexivity.
Defined.

(** *** Where the returned records come from *)

Lemma loop_body_new w f new :
  loop_body w f [] = Ok new -> new = [] \/ exists info, new = [info].
Proof.
  intros H.
  destruct (loop_body_inv _ _ _ _ H)
    as (g & c & lon & lat & d & _ & _ & _ & _ & _ & [[_ ->] | [_ Hin]]).
  - now left.
  - destruct Hin as (p & ms & ts & dt & depth & info & Hinfo).
    right. exists info. now decompose [and] Hinfo.
Qed.

Lemma for_features_origin w fs nearby :
  for_features w fs [] = Ok nearby ->
  (List.length nearby <= List.length fs)%nat
  /\ forall info, In info nearby -> exists f, In f fs /\ loop_body w f [] = Ok [info].
Proof.
  revert nearby. induction fs as [| f fs IH]; intros nearby H.
  - cbn in H. injection H as <-. split; [cbn; lia | intros info []].
  - rewrite for_features_cons in H.
    destruct (loop_body w f []) as [first |] eqn:Hf; cbn [bind] in H; [| discriminate].
    destruct (for_features w fs []) as [rest |] eqn:Hr; cbn [bind] in H; [| discriminate].
    injection H as <-. destruct (IH rest eq_refl) as [Hlen Hin].
    destruct (loop_body_new _ _ _ Hf) as [-> | [info0 ->]].
    + cbn [app]. split; [cbn; lia |].
      intros info Hi. destruct (Hin info Hi) as (f' & Hf' & Hl).
      exists f'. split; [now right | assumption].
    + cbn [app]. split; [cbn; lia |].
      intros info [<- | Hi].
      * exists f. split; [now left | assumption].
      * destruct (Hin info Hi) as (f' & Hf' & Hl).
        exists f'. split; [now right | assumption].
Qed.

(** What a successful call went through. *)
Lemma get_earthquake_nonempty_inv w features l :
  feed_features w features ->
  fst (get_earthquake w) = Ok l ->
  l <> [] ->
  exists nearby,
    for_features w features [] = Ok nearby
    /\ list_sort_reverse (sort_position w) sort_key nearby = Ok l.
Proof.
  intros Hfeed H Hne.
  unfold get_earthquake, try_except_Exception in H.
  destruct (get_earthquake_try w) as [l0 | e] eqn:Htry; cbn [fst] in H.
  - injection H as <-. rewrite (get_earthquake_features _ _ Hfeed) in Htry.
    destruct (for_features w features []) as [nearby |]; cbn [bind] in Htry;
      [| discriminate].
    now exists nearby.
  - destruct (is_Exception e); cbn [fst] in H; [| discriminate].
    injection H as <-. contradiction.
Qed.

Lemma returned_record_origin w features l info :
  feed_features w features ->
  fst (get_earthquake w) = Ok l ->
  In info l ->
  exists f, In f features /\ loop_body w f [] = Ok [info].
Proof.
  intros Hfeed H Hin.
  assert (Hne : l <> []) by (intros ->; contradiction).
  destruct (get_earthquake_nonempty_inv _ _ _ Hfeed H Hne) as (nearby & Hloop & Hsort).
  apply (for_features_origin _ _ _ Hloop).
  apply (Permutation_in _ (Permutation_sym (list_sort_reverse_perm _ _ _ _ Hsort))).
  assumption.
Qed.

(** X8: [get_earthquake] returns at most one record per feature of the
    feed. *)
Theorem at_most_one_record_per_feature (w : World) (features : list pyval)
    (l : list EarthquakeInfo) :
  feed_features w features ->
  fst (get_earthquake w) = Ok l ->
  (List.length l <= List.length features)%nat.
Proof.
  intros Hfeed H.
  destruct l as [| info l']; [cbn; lia |].
  destruct (get_earthquake_nonempty_inv _ _ _ Hfeed H) as (nearby & Hloop & Hsort);
    [discriminate |].
  rewrite <- (Permutation_length (list_sort_reverse_perm _ _ _ _ Hsort)).
  apply (for_features_origin _ _ _ Hloop).
Qed.

Lemma py_get_dict o k default v :
  py_get o k default = Ok v ->
  exists d, o = PDict d
            /\ v = match dict_lookup k d with Some x => x | None => default end.
Proof.
  destruct o; cbn; try discriminate. intros [= <-]. now exists d.
Qed.

(** The fields of an accepted record. *)
Lemma loop_body_fields w f info :
  loop_body w f [] = Ok [info] ->
  exists p coords depth,
    py_getitem_str f "properties" = Ok (PDict p)
    /\ magnitude info = get_or_None "mag" p
    /\ place info = get_or_None "place" p
    /\ info_url info = get_or_None "url" p
    /\ alert info = get_or_None "alert" p
    /\ felt info = get_or_None "felt" p
    /\ tsunami info = get_or_None "tsunami" p
    /\ (geometry <- py_getitem_str f "geometry" ;;
        py_getitem_str geometry "coordinates") = Ok coords
    /\ py_getitem_int coords 2 = Ok depth
    /\ py_round1 depth = Ok (depth_km info)
    /\ (timestamp <- py_truediv (get_or_None "time" p) 1000 ;;
        dt <- fromtimestamp w timestamp ;;
        Ok (strftime_space_UTC dt)) = Ok (time info).
Proof.
  unfold loop_body. intros H.
  bind_ok H geometry Eg. bind_ok H coords Ec.
  bind_ok H lon Elon. bind_ok H lat Elat. bind_ok H distance Ed.
  destruct (float_leb distance RADIUS_KM); [| discriminate].
  bind_ok H properties Ep. bind_ok H mag Em. bind_ok H place_ Epl.
  bind_ok H time_ms Et. bind_ok H timestamp Ets. bind_ok H dt Edt.
  bind_ok H depth Edepth. bind_ok H depth_rounded Er.
  bind_ok H url_ Eu. bind_ok H alert_ Ea. bind_ok H felt_ Ef.
  bind_ok H tsunami_ Ety.
  cbn [app] in H. injection H as <-.
  destruct (py_get_dict _ _ _ _ Em) as (p & -> & ->).
  apply py_get_dict in Epl as (p1 & [= <-] & ->).
  apply py_get_dict in Et as (p2 & [= <-] & ->).
  apply py_get_dict in Eu as (p3 & [= <-] & ->).
  apply py_get_dict in Ea as (p4 & [= <-] & ->).
  apply py_get_dict in Ef as (p5 & [= <-] & ->).
  apply py_get_dict in Ety as (p6 & [= <-] & ->).
  exists p, coords, depth. cbn [magnitude place info_url alert felt tsunami depth_km time].
  unfold get_or_None.
  repeat (split; [first [reflexivity | assumption] |]).
  rewrite Ets. cbn [bind]. rewrite Edt. reflexivity.
Qed.

(** X9: every returned record copies the magnitude, place, url, alert,
    felt and tsunami members of the properties of one feature of the
    feed, [None] standing for a missing member, and its depth is
    [round(., 1)] of the third coordinate of that feature: a float
    rounded to one decimal place, an int as it is. *)
Theorem returned_record_fields (w : World) (features : list pyval)
    (l : list EarthquakeInfo) (info : EarthquakeInfo) :
  feed_features w features ->
  fst (get_earthquake w) = Ok l ->
  In info l ->
  exists f p coords depth,
    In f features
    /\ py_getitem_str f "properties" = Ok (PDict p)
    /\ magnitude info = get_or_None "mag" p
    /\ place info = get_or_None "place" p
    /\ info_url info = get_or_None "url" p
    /\ alert info = get_or_None "alert" p
    /\ felt info = get_or_None "felt" p
    /\ tsunami info = get_or_None "tsunami" p
    /\ (geometry <- py_getitem_str f "geometry" ;;
        py_getitem_str geometry "coordinates") = Ok coords
    /\ py_getitem_int coords 2 = Ok depth
    /\ py_round1 depth = Ok (depth_km info)
    /\ rounded_to_one_decimal depth (depth_km info).
Proof.
  intros Hfeed H Hin.
  destruct (returned_record_origin _ _ _ _ Hfeed H Hin) as (f & Hf & Hl).
  destruct (loop_body_fields _ _ _ Hl) as (p & coords & depth & Hfields).
  exists f, p, coords, depth. split; [assumption |].
  decompose [and] Hfields. repeat (split; [assumption |]).
  now apply py_round1_rounded.
Qed.

(** X17: on a host whose local time is UTC, the time field of every
    returned record is the UTC rendering of the "time" member of the
    feature it comes from. *)
Theorem time_field_utc_on_utc_host (w : World) (features : list pyval)
    (l : list EarthquakeInfo) (info : EarthquakeInfo) :
  (forall s, utcoffset w s = 0%Z) ->
  feed_features w features ->
  fst (get_earthquake w) = Ok l ->
  In info l ->
  exists f p,
    In f features
    /\ py_getitem_str f "properties" = Ok (PDict p)
    /\ utc_time_string (get_or_None "time" p) = Ok (time info).
Proof.
  intros Hutc Hfeed H Hin.
  destruct (returned_record_origin _ _ _ _ Hfeed H Hin) as (f & Hf & Hl).
  destruct (loop_body_fields _ _ _ Hl) as (p & coords & depth & Hfields).
  exists f, p. split; [assumption |].
  decompose [and] Hfields. split; [assumption |].
  unfold utc_time_string.
  destruct (py_truediv (get_or_None "time" p) 1000) as [ts |]; [| assumption].
  cbn [bind] in *.
  destruct (fromtimestamp w ts) as [dt |] eqn:Hdt; cbn [bind] in *;
    [| congruence].
  now rewrite (fromtimestamp_utc_host w ts dt Hutc Hdt).
Qed.

(** *** Features outside the radius *)

Lemma fromtimestamp_ext w w' t :
  (forall s, utcoffset w s = utcoffset w' s) ->
  fromtimestamp w t = fromtimestamp w' t.
Proof. intros H. destruct t; cbn [fromtimestamp]; [now rewrite !H | | ]; reflexivity. Qed.

Lemma loop_body_ext w w' f acc :
  (forall s, utcoffset w s = utcoffset w' s) ->
  loop_body w f acc = loop_body w' f acc.
Proof.
  intros H. unfold loop_body.
  repeat (match goal with
          | |- bind (fromtimestamp w ?t) _ = _ => rewrite (fromtimestamp_ext w w' t H)
          | |- bind ?m _ = bind ?m _ => destruct m; cbn [bind]
          | |- (if ?c then _ else _) = (if ?c then _ else _) => destruct c
          end; try reflexivity).
Qed.

Lemma for_features_ext w w' fs acc :
  (forall s, utcoffset w s = utcoffset w' s) ->
  for_features w fs acc = for_features w' fs acc.
Proof.
  intros H. revert acc. induction fs as [| f fs IH]; intros acc; cbn [for_features].
  - reflexivity.
  - rewrite (loop_body_ext w w' f acc H).
    destruct (loop_body w' f acc); cbn [bind]; [apply IH | reflexivity].
Qed.

Lemma for_features_skip w fs1 f fs2 acc :
  (forall acc', loop_body w f acc' = Ok acc') ->
  for_features w (fs1 ++ f :: fs2) acc = for_features w (fs1 ++ fs2) acc.
Proof.
  intros Hskip. revert acc.
  induction fs1 as [| f1 fs1 IH]; intros acc; cbn [app for_features].
  - now rewrite Hskip.
  - destruct (loop_body w f1 acc); cbn [bind]; [apply IH | reflexivity].
Qed.

(** X10: a feature whose distance fails the guard (it is farther than
    the radius, or its distance is a NaN) is skipped wherever it stands in
    the feed: on the same host and interpreter, removing it from the feed
    changes neither the list returned nor the output printed. *)
Theorem far_feature_ignored (w w' : World) (fs1 fs2 : list pyval) (f : pyval)
    (d : pyfloat) :
  (forall s, utcoffset w s = utcoffset w' s) ->
  (forall keys k, sort_position w keys k = sort_position w' keys k) ->
  feed_features w (fs1 ++ f :: fs2) ->
  feed_features w' (fs1 ++ fs2) ->
  feature_distance f = Ok d ->
  float_leb d RADIUS_KM = false ->
  get_earthquake w = get_earthquake w'.
Proof.
  intros Hzone Hsort Hfeed Hfeed' Hd Hfar.
  unfold get_earthquake.
  rewrite (get_earthquake_features _ _ Hfeed), (get_earthquake_features _ _ Hfeed').
  rewrite for_features_skip by (intros acc'; now apply loop_body_far with (d := d)).
  rewrite (for_features_ext w w' _ _ Hzone).
  destruct (for_features w' (fs1 ++ fs2) []) as [nearby |]; cbn [bind];
    [| reflexivity].
  now rewrite (list_sort_reverse_ext _ _ (sort_position w) (sort_position w') Hsort).
Qed.

(** *** A fault in one feature *)

Lemma for_features_raises w f fs :
  In f fs ->
  (forall acc, exists e, loop_body w f acc = Raise e) ->
  forall acc, exists e, for_features w fs acc = Raise e.
Proof.
  intros Hin Hbad. induction fs as [| f' fs IH]; intros acc; [contradiction |].
  cbn [for_features].
  destruct (loop_body w f' acc) as [acc' | e] eqn:Hrun; cbn [bind].
  - destruct Hin as [-> | Hin]; [| now apply IH].
    destruct (Hbad acc) as [e He]. congruence.
  - now exists e.
Qed.

Lemma get_earthquake_loop_fault w features e :
  feed_features w features ->
  for_features w features [] = Raise e ->
  get_earthquake w = (Ok [], [ErrorFetching e]).
Proof.
  intros Hfeed He. apply get_earthquake_masked.
  - now rewrite (get_earthquake_features _ _ Hfeed), He.
  - eapply for_features_Exception. exact He.
Qed.

(** X11: when a feature that passes the radius guard has no "time"
    member, or one that is not a number, the division by 1000 faults and
    [get_earthquake] returns the empty list, whatever else the feed
    holds, and prints the error. *)
Theorem nearby_feature_without_time_empties_result (w : World)
    (features : list pyval) (f : pyval) (d : pyfloat) (p : list (string * pyval)) :
  feed_features w features ->
  In f features ->
  feature_distance f = Ok d ->
  float_leb d RADIUS_KM = true ->
  py_getitem_str f "properties" = Ok (PDict p) ->
  num_value (get_or_None "time" p) = None ->
  exists e, get_earthquake w = (Ok [], [ErrorFetching e]).
Proof.
  intros Hfeed Hin Hd Hnear Hp Htime.
  assert (Hbad : forall acc, exists e, loop_body w f acc = Raise e).
  { intros acc.
    destruct (loop_body w f acc) as [acc' | e] eqn:Hrun; [exfalso | now exists e].
    destruct (loop_body_inv _ _ _ _ Hrun)
      as (geometry & coords & lon & lat & distance
          & Hg & Hc & Hlon & Hlat & Hdist & Hcases).
    rewrite (feature_distance_of_parts _ _ _ _ _ Hg Hc Hlon Hlat) in Hd.
    rewrite Hd in Hdist. injection Hdist as <-.
    destruct Hcases as [[Hfar _] | [_ Hacc]]; [congruence |].
    destruct Hacc as (properties & ms & ts & dt & depth & info
                      & Hp' & _ & Hms & Hts & _).
    rewrite Hp in Hp'. injection Hp' as <-.
    cbn [py_get] in Hms. injection Hms as <-.
    fold (get_or_None "time" p) in Hts.
    destruct (get_or_None "time" p); try discriminate Htime; discriminate Hts. }
  destruct (for_features_raises w f features Hin Hbad []) as [e He].
  exists e. now apply get_earthquake_loop_fault with (features := features).
Qed.

(** *** Rounding of the stored distance *)

(** X16: the [distance_km] of every returned record is the distance
    computed for the feature it comes from, rounded to one decimal place:
    a number that is not negative and within 0.0500001 km of that distance
    (0.05 for the rounding to a tenth; the rest covers the double nearest
    to that tenth). *)
Theorem stored_distance_accuracy (w : World) (features : list pyval)
    (l : list EarthquakeInfo) (info : EarthquakeInfo) :
  feed_features w features ->
  fst (get_earthquake w) = Ok l ->
  In info l ->
  exists (f : pyval) (d r : R),
    In f features
    /\ feature_distance f = Ok (Finite d)
    /\ distance_km info = Finite r
    /\ rounded_to_tenth d r
    /\ Rabs (r - d) <= 0.0500001
    /\ 0 <= r.
Proof.
  intros Hfeed H Hin.
  destruct (returned_record_origin _ _ _ _ Hfeed H Hin) as (f & Hf & Hl).
  destruct (loop_body_inv _ _ _ _ Hl)
    as (geometry & coords & lon & lat & distance
        & Hg & Hc & Hlon & Hlat & Hdist & Hcases).
  destruct Hcases as [[_ Heq] | [Hle Hacc]]; [discriminate Heq |].
  destruct (accepted_distance_finite _ _ _ Hdist Hle) as (d & -> & Hd0 & _).
  destruct Hacc as (properties & ms & ts & dt & depth & info'
                    & _ & _ & _ & _ & _ & _ & _ & _ & Hkm & Heq).
  cbn [app] in Heq. injection Heq as <-.
  exists f, d, (round1 d). split; [assumption |].
  split; [now rewrite (feature_distance_of_parts _ _ _ _ _ Hg Hc Hlon Hlat) |].
  split; [exact Hkm |].
  split; [apply round1_rounded |].
  split; [pose proof (round1_near d); lra | now apply round1_nonneg].
Qed.

(** *** Stability of the sort and incomparable magnitudes *)

Section SortingMore.
Context {A : Type} (position : list pyval -> pyval -> nat) (key : A -> pyval).





Lemma list_sort_reverse_mixed (l : list A) (a b : A) (x : pyfloat) :
  In a l -> In b l ->
  num_value (key a) = Some x -> num_value (key b) = None ->
  list_sort_reverse position key l = Raise TypeError.
Proof.
  intros Ha Hb Hx Hnone. unfold list_sort_reverse.
  destruct (all_comparable (map key l)) eqn:Hc; [exfalso | reflexivity].
  destruct (all_comparable_kinds key l Hc) as [Hnum | Hnon].
  - rewrite Forall_forall in Hnum. destruct (Hnum b Hb) as [y Hy]. congruence.
  - rewrite Forall_forall in Hnon. specialize (Hnon a Ha). congruence.
Qed.
End SortingMore.


(** X13: when one accepted record has a number (NaN included) or no
    magnitude and another has a non-empty string as magnitude, the sort raises
    [TypeError] and [get_earthquake] returns the empty list. *)
Theorem mixed_magnitudes_empty_result (w : World) (features : list pyval)
    (nearby : list EarthquakeInfo) (a b : EarthquakeInfo) (x : pyfloat)
    (s : string) :
  feed_features w features ->
  for_features w features [] = Ok nearby ->
  In a nearby -> In b nearby ->
  magnitude_or_0 a = Some x ->
  magnitude b = PStr s -> s <> EmptyString ->
  get_earthquake w = (Ok [], [ErrorFetching TypeError]).
Proof.
  intros Hfeed Hloop Ha Hb Hx Hs Hne.
  apply get_earthquake_masked; [| reflexivity].
  rewrite (get_earthquake_features _ _ Hfeed), Hloop. cbn [bind].
  apply (list_sort_reverse_mixed _ sort_key nearby a b x Ha Hb).
  - now apply sort_key_magnitude.
  - unfold sort_key. rewrite Hs. cbn [py_truthy].
    destruct (String.eqb_spec s EmptyString); [contradiction | reflexivity].
Qed.

(** *** Coordinates that are NaN or infinite *)

(** The distance from the reference point to a point whose coordinates
    are any two floats. *)
Lemma calculate_distance_special (lat lon : pyfloat) :
  calculate_distance (PFloat SF_LAT) (PFloat SF_LON) (PFloat lat) (PFloat lon)
  = match lat, lon with
    | Infinity _, _ | _, Infinity _ => Raise ValueError
    | NaN, _ | _, NaN => Ok NaN
    | Finite lat, Finite lon => Ok (Finite (haversine 6371 SF_LAT SF_LON lat lon))
    end.
Proof.
  destruct lat as [lat | | [|]].
  1: destruct lon as [lon | | [|]]; [apply calculate_distance_floats | | | ].
  all: try destruct lon as [lon | | [|]].
  all: unfold calculate_distance, radians; cbn [py_float bind];
    rewrite !fmul_radians;
    cbn [bind fsub fadd fmul fdiv py_sin py_cos py_sqrt py_atan2 float_pow
         Bool.eqb negb];
    reflexivity.
Qed.

(** X19: a feature whose latitude or longitude is a NaN, the other being
    a float that is not an infinity, has the distance NaN, fails the
    guard [distance <= RADIUS_KM] and is passed over without fault,
    whatever else it holds. *)
Theorem nan_coordinate_passed_over (w : World) (f geometry coords : pyval)
    (lat lon : pyfloat) (acc : list EarthquakeInfo) :
  py_getitem_str f "geometry" = Ok geometry ->
  py_getitem_str geometry "coordinates" = Ok coords ->
  py_getitem_int coords 0 = Ok (PFloat lon) ->
  py_getitem_int coords 1 = Ok (PFloat lat) ->
  lat = NaN \/ lon = NaN ->
  (forall s, lat <> Infinity s) ->
  (forall s, lon <> Infinity s) ->
  feature_distance f = Ok NaN /\ loop_body w f acc = Ok acc.
Proof.
  intros Hg Hc Hlon Hlat Hnan Hlat_fin Hlon_fin.
  assert (Hd : feature_distance f = Ok NaN).
  { rewrite (feature_distance_of_parts _ _ _ _ _ Hg Hc Hlon Hlat).
    rewrite calculate_distance_special.
    destruct lat as [lat | | s]; [| | now destruct (Hlat_fin s)];
      (destruct lon as [lon | | t]; [| | now destruct (Hlon_fin t)]);
      try reflexivity.
    destruct Hnan; discriminate. }
  split; [exact Hd |].
  now apply loop_body_far with (d := NaN).
Qed.

Lemma nan_coordinate_passed_over_witness :
  let f := PDict [ ("geometry"%string,
                     PDict [ ("coordinates"%string,
                              PList [PFloat SF_LON; PFloat NaN; PInt 10]) ]) ] in
  feature_distance f = Ok NaN
  /\ loop_body (world_with 0 PNone) f [] = Ok [].
Proof.
  cbv zeta.
  eapply (nan_coordinate_passed_over _ _ _ _ NaN (Finite SF_LON));
    try reflexivity.
  - now left.
  - discriminate.
  - discriminate.
Defined.

(** X20: a feature whose latitude or longitude is an infinity makes the
    distance calculation raise [ValueError] (the sine or cosine of an
    infinity), and [get_earthquake] then returns the empty list, whatever
    else the feed holds, and prints an error. *)
Theorem infinite_coordinate_empties_result (w : World) (features : list pyval)
    (f geometry coords : pyval) (lat lon : pyfloat) :
  feed_features w features ->
  In f features ->
  py_getitem_str f "geometry" = Ok geometry ->
  py_getitem_str geometry "coordinates" = Ok coords ->
  py_getitem_int coords 0 = Ok (PFloat lon) ->
  py_getitem_int coords 1 = Ok (PFloat lat) ->
  (exists s, lat = Infinity s) \/ (exists s, lon = Infinity s) ->
  feature_distance f = Raise ValueError
  /\ exists e, get_earthquake w = (Ok [], [ErrorFetching e]).
Proof.
  intros Hfeed Hin Hg Hc Hlon Hlat Hinf.
  assert (Hd : feature_distance f = Raise ValueError).
  { rewrite (feature_distance_of_parts _ _ _ _ _ Hg Hc Hlon Hlat).
    rewrite calculate_distance_special.
    destruct Hinf as [[s ->] | [s ->]]; [reflexivity |].
    now destruct lat. }
  split; [exact Hd |].
  assert (Hbad : forall acc, exists e, loop_body w f acc = Raise e).
  { intros acc. exists ValueError. unfold loop_body.
    rewrite Hg. cbn [bind]. rewrite Hc. cbn [bind]. rewrite Hlon. cbn [bind].
    rewrite Hlat. cbn [bind].
    rewrite (feature_distance_of_parts _ _ _ _ _ Hg Hc Hlon Hlat) in Hd.
    now rewrite Hd. }
  destruct (for_features_raises w f features Hin Hbad []) as [e He].
  exists e. now apply get_earthquake_loop_fault with (features := features).
Qed.

Lemma infinite_coordinate_empties_result_witness :
  let f := PDict [ ("geometry"%string,
                     PDict [ ("coordinates"%string,
                              PList [PFloat (Infinity false); PFloat SF_LAT;
                                     PInt 10]) ]) ] in
  feature_distance f = Raise ValueError
  /\ exists e,
       get_earthquake
         (world_with 0 (feature_collection [feature_at SF_LAT SF_LON (PFloat 5) 0; f]))
       = (Ok [], [ErrorFetching e]).
Proof.
  cbv zeta.
  eapply (infinite_coordinate_empties_result _ _ _ _ _ (Finite SF_LAT)
            (Infinity false)); try reflexivity.
  - apply world_with_features.
  - right. now left.
  - right. now exists false.
Defined.

(** ** The radius and the query box *)

(** The central angle is at least any [t] whose squared sine is below the
    haversine term. *)
Lemma central_angle_ge (a t : R) :
  0 <= a <= 1 -> 0 <= t <= PI / 2 -> sin t ^ 2 <= a ->
  t <= atan2 (sqrt a) (sqrt (1 - a)).
Proof.
  intros Ha Ht Hle. pose proof PI_RGT_0 as Hpi.
  destruct (Req_dec a 1) as [-> | Hne].
  - replace (1 - 1) with 0 by ring. rewrite sqrt_1, sqrt_0, atan2_1_0. lra.
  - destruct (Req_dec t 0) as [-> | Ht0].
    + apply atan2_nonneg; apply sqrt_pos.
    + destruct (Req_dec t (PI / 2)) as [-> | Ht2].
      * rewrite sin_PI2 in Hle. lra.
      * apply atan2_sqrt_ge; lra.
Qed.

Lemma sin_sq_abs (x : R) : sin (Rabs x) ^ 2 = sin x ^ 2.
Proof.
  unfold Rabs. destruct (Rcase_abs x); [| reflexivity].
  rewrite sin_neg. ring.
Qed.

Lemma sin_sq_incr (x y : R) : 0 <= x <= y -> y <= PI / 2 -> sin x ^ 2 <= sin y ^ 2.
Proof.
  intros Hxy Hy. pose proof PI_RGT_0.
  assert (0 <= sin x) by (apply sin_ge_0; lra).
  assert (sin x <= sin y) by (apply sin_incr_1; lra).
  apply pow_incr. lra.
Qed.

(** Between latitudes in range the distance is at least the distance
    between the parallels. *)
Lemma haversine_ge_parallels (r lat1 lon1 lat2 lon2 : R) :
  0 <= r -> -90 <= lat1 <= 90 -> -90 <= lat2 <= 90 ->
  r * (Rabs (lat2 - lat1) * (PI / 180)) <= haversine r lat1 lon1 lat2 lon2.
Proof.
  intros Hr H1 H2. pose proof PI_RGT_0 as Hpi.
  rewrite haversine_hav_a. cbv zeta.
  set (k := PI / 180). assert (Hk : 0 < k) by (unfold k; lra).
  set (a := hav_a (lat1 * k) (lon1 * k) (lat2 * k) (lon2 * k)).
  pose proof (hav_a_range (lat1 * k) (lon1 * k) (lat2 * k) (lon2 * k)) as Ha.
  fold a in Ha.
  set (t := Rabs (lat2 - lat1) * k / 2).
  assert (Habs : 0 <= Rabs (lat2 - lat1) <= 180).
  { split; [apply Rabs_pos | apply Rabs_le; lra]. }
  assert (Ht : 0 <= t <= PI / 2).
  { unfold t, k. split.
    - apply Rmult_le_pos; [| lra]. apply Rmult_le_pos; lra.
    - assert (Rabs (lat2 - lat1) * (PI / 180) <= 180 * (PI / 180))
        by (apply Rmult_le_compat_r; lra).
      lra. }
  assert (Hsin : sin t ^ 2 <= a).
  { unfold a, hav_a.
    replace ((lat2 * k - lat1 * k) / 2) with ((lat2 - lat1) * k / 2) by field.
    assert (E : sin t ^ 2 = sin ((lat2 - lat1) * k / 2) ^ 2).
    { unfold t. rewrite <- (sin_sq_abs ((lat2 - lat1) * k / 2)).
      f_equal. f_equal. unfold Rdiv. rewrite !Rabs_mult.
      rewrite (Rabs_right k) by lra. rewrite (Rabs_right (/ 2)) by lra.
      reflexivity. }
    rewrite E.
    assert (K90 : 90 * k = PI / 2) by (unfold k; field).
    assert (0 <= cos (lat1 * k)) by (apply cos_ge_0; nra).
    assert (0 <= cos (lat2 * k)) by (apply cos_ge_0; nra).
    pose proof (pow2_ge_0 (sin ((lon2 * k - lon1 * k) / 2))).
    assert (0 <= cos (lat1 * k) * cos (lat2 * k) * sin ((lon2 * k - lon1 * k) / 2) ^ 2).
    { apply Rmult_le_pos; [apply Rmult_le_pos |]; assumption. }
    lra. }
  pose proof (central_angle_ge a t Ha Ht Hsin) as Hc.
  replace (Rabs (lat2 - lat1) * k) with (2 * t) by (unfold t; field).
  apply Rmult_le_compat_l; [assumption |]. lra.
Qed.

(** X18: in exact arithmetic, between two points of latitudes in
    [-90, 90] the distance is at least the distance between their
    parallels, 6371 times the latitude difference in radians. *)
Theorem calculate_distance_at_least_between_parallels (lat1 lon1 lat2 lon2 : R) :
  -90 <= lat1 <= 90 -> -90 <= lat2 <= 90 ->
  exists d : R,
    calculate_distance (PFloat lat1) (PFloat lon1) (PFloat lat2) (PFloat lon2)
    = Ok (Finite d)
    /\ 6371 * (Rabs (lat2 - lat1) * (PI / 180)) <= d.
Proof.
  intros H1 H2. eexists. split; [apply calculate_distance_floats |].
  apply haversine_ge_parallels; lra.
Qed.

(** X14: in exact arithmetic every point of latitude in [-90, 90] that
    the radius filter accepts has its latitude strictly inside the
    latitude range of the query. *)
Theorem accepted_latitude_inside_query_box (w : World) (lat lon d : R) :
  -90 <= lat <= 90 ->
  calculate_distance (PFloat SF_LAT) (PFloat SF_LON) (PFloat lat) (PFloat lon)
  = Ok (Finite d) ->
  d <= RADIUS_KM ->
  exists lo hi,
    In ("minlatitude"%string, ParamNum lo) (params (feed_request w))
    /\ In ("maxlatitude"%string, ParamNum hi) (params (feed_request w))
    /\ lo < lat < hi.
Proof.
  intros Hlat Hd Hnear.
  exists (SF_LAT - 2), (SF_LAT + 2).
  split; [cbn; auto 10 |]. split; [cbn; auto 10 |].
  rewrite calculate_distance_floats in Hd. injection Hd as <-.
  pose proof (haversine_ge_parallels 6371 SF_LAT SF_LON lat lon) as Hge.
  unfold SF_LAT in *. unfold RADIUS_KM in Hnear.
  specialize (Hge ltac:(lra) ltac:(lra) Hlat).
  pose proof PI_bounds as HPI.
  assert (Hk : 0.01745 < PI / 180) by lra.
  assert (Habs : Rabs (lat - 37.7749) < 2).
  { destruct (Rlt_dec (Rabs (lat - 37.7749)) 2) as [|Hn]; [assumption | exfalso].
    assert (2 * (PI / 180) <= Rabs (lat - 37.7749) * (PI / 180))
      by (apply Rmult_le_compat_r; lra).
    lra. }
  apply Rabs_def2 in Habs. lra.
Qed.

(** X15: in exact arithmetic the points on the parallel of the reference
    point between 2 and 2.2 degrees of longitude east of it are within
    the radius, yet beyond the "maxlongitude" of the query: the query box
    is narrower than the alert circle. *)
Theorem longitude_box_narrower_than_radius (w : World) (lon : R) :
  SF_LON + 2 < lon <= SF_LON + 2.2 ->
  In ("maxlongitude"%string, ParamNum (SF_LON + 2)) (params (feed_request w))
  /\ exists d : R,
       calculate_distance (PFloat SF_LAT) (PFloat SF_LON) (PFloat SF_LAT) (PFloat lon)
       = Ok (Finite d)
       /\ d <= RADIUS_KM.
Proof.
  intros Hlon. split; [cbn; auto 10 |].
  eexists. split; [apply calculate_distance_floats |].
  rewrite haversine_hav_a. cbv zeta.
  pose proof PI_bounds as HPI.
  set (k := PI / 180).
  assert (Hk : 3.1415 / 180 < k < 3.1421 / 180) by (unfold k; lra).
  pose proof (hav_a_range (SF_LAT * k) (SF_LON * k) (SF_LAT * k) (lon * k)) as Hrange.
  assert (Ha : hav_a (SF_LAT * k) (SF_LON * k) (SF_LAT * k) (lon * k) <= 0.000231).
  { unfold hav_a.
    replace ((SF_LAT * k - SF_LAT * k) / 2) with 0 by field.
    rewrite sin_0.
    set (x := (lon * k - SF_LON * k) / 2).
    assert (Hx : 0 <= x <= 0.019203) by (unfold x; nra).
    destruct (sin_enclosure x) as [_ Hs]; [lra |].
    assert (0 <= sin x) by (apply sin_ge_0; lra).
    destruct (cos_enclosure (SF_LAT * k)) as [_ Hc]; [unfold SF_LAT; lra |].
    assert (0 < cos (SF_LAT * k)) by (apply cos_gt_0; unfold SF_LAT; lra).
    set (p := SF_LAT * k) in *.
    assert (P : 0.65927 < p < 0.65941) by (unfold p, SF_LAT; lra).
    assert (C : cos p <= 0.7906).
    { pow_bound 0.65927 p 2%nat. pow_bound p 0.65941 4%nat. lra. }
    set (c := cos p) in *. set (s := sin x) in *.
    pow_bound s 0.019203 2%nat. pow_bound c 0.7906 2%nat.
    replace (0 ^ 2 + c * c * s ^ 2) with (c ^ 2 * s ^ 2) by ring.
    assert (c ^ 2 * s ^ 2 <= 0.7906 ^ 2 * 0.019203 ^ 2).
    { apply Rmult_le_compat; try apply pow2_ge_0; assumption. }
    lra. }
  set (a := hav_a _ _ _ _) in *.
  assert (HU : atan2 (sqrt a) (sqrt (1 - a)) <= 200 / 12742).
  { apply atan2_sqrt_le; [lra | lra |].
    destruct (sin_enclosure (200 / 12742)) as [Hs _]; [lra |].
    pow_bound 0.01569 (sin (200 / 12742)) 2%nat. lra. }
  unfold RADIUS_KM. lra.
Qed.

(** ** Fixture evaluations for the witnesses *)

Lemma SF_within_radius : haversine 6371 SF_LAT SF_LON SF_LAT SF_LON <= RADIUS_KM.
Proof. rewrite SF_distance_0. unfold RADIUS_KM. lra. Qed.

Lemma get_earthquake_single_SF mag :
  get_earthquake (world_with 0 (feature_collection [feature_at SF_LAT SF_LON mag 0]))
  = (Ok [info_at 0 SF_LAT SF_LON mag 0], []).
Proof.
  apply get_earthquake_Ok.
  rewrite (get_earthquake_features _ _ (world_with_features _ _)).
  cbn [for_features].
  rewrite loop_body_feature_at; [| apply SF_within_radius | reflexivity | reflexivity | reflexivity].
  apply list_sort_reverse_singleton.
Qed.

Lemma at_most_one_record_per_feature_witness :
  (List.length [info_at 0 SF_LAT SF_LON (PFloat 3) 0]
   <= List.length [feature_at SF_LAT SF_LON (PFloat 3) 0])%nat.
Proof.
  apply (at_most_one_record_per_feature
           (world_with 0 (feature_collection [feature_at SF_LAT SF_LON (PFloat 3) 0]))).
  - apply world_with_features.
  - now rewrite get_earthquake_single_SF.
Defined.

Lemma returned_record_fields_witness :
  exists f p coords depth,
    In f [feature_at SF_LAT SF_LON (PFloat 3) 0]
    /\ py_getitem_str f "properties" = Ok (PDict p)
    /\ magnitude (info_at 0 SF_LAT SF_LON (PFloat 3) 0) = get_or_None "mag" p
    /\ place (info_at 0 SF_LAT SF_LON (PFloat 3) 0) = get_or_None "place" p
    /\ info_url (info_at 0 SF_LAT SF_LON (PFloat 3) 0) = get_or_None "url" p
    /\ alert (info_at 0 SF_LAT SF_LON (PFloat 3) 0) = get_or_None "alert" p
    /\ felt (info_at 0 SF_LAT SF_LON (PFloat 3) 0) = get_or_None "felt" p
    /\ tsunami (info_at 0 SF_LAT SF_LON (PFloat 3) 0) = get_or_None "tsunami" p
    /\ (geometry <- py_getitem_str f "geometry" ;;
        py_getitem_str geometry "coordinates") = Ok coords
    /\ py_getitem_int coords 2 = Ok depth
    /\ py_round1 depth = Ok (depth_km (info_at 0 SF_LAT SF_LON (PFloat 3) 0))
    /\ rounded_to_one_decimal depth
         (depth_km (info_at 0 SF_LAT SF_LON (PFloat 3) 0)).
Proof.
  apply (returned_record_fields
           (world_with 0 (feature_collection [feature_at SF_LAT SF_LON (PFloat 3) 0]))
           [feature_at SF_LAT SF_LON (PFloat 3) 0]
           [info_at 0 SF_LAT SF_LON (PFloat 3) 0]).
  - apply world_with_features.
  - now rewrite get_earthquake_single_SF.
  - now left.
Defined.

Lemma time_field_utc_on_utc_host_witness :
  exists f p,
    In f [feature_at SF_LAT SF_LON (PFloat 3) 0]
    /\ py_getitem_str f "properties" = Ok (PDict p)
    /\ utc_time_string (get_or_None "time" p)
       = Ok (time (info_at 0 SF_LAT SF_LON (PFloat 3) 0)).
Proof.
  apply (time_field_utc_on_utc_host
           (world_with 0 (feature_collection [feature_at SF_LAT SF_LON (PFloat 3) 0]))
           [feature_at SF_LAT SF_LON (PFloat 3) 0]
           [info_at 0 SF_LAT SF_LON (PFloat 3) 0]).
  - reflexivity.
  - apply world_with_features.
  - now rewrite get_earthquake_single_SF.
  - now left.
Defined.

Lemma stored_distance_accuracy_witness :
  exists (f : pyval) (d r : R),
    In f [feature_at SF_LAT SF_LON (PFloat 3) 0]
    /\ feature_distance f = Ok (Finite d)
    /\ distance_km (info_at 0 SF_LAT SF_LON (PFloat 3) 0) = Finite r
    /\ rounded_to_tenth d r
    /\ Rabs (r - d) <= 0.0500001
    /\ 0 <= r.
Proof.
  apply (stored_distance_accuracy
           (world_with 0 (feature_collection [feature_at SF_LAT SF_LON (PFloat 3) 0]))
           [feature_at SF_LAT SF_LON (PFloat 3) 0]
           [info_at 0 SF_LAT SF_LON (PFloat 3) 0]).
  - apply world_with_features.
  - now rewrite get_earthquake_single_SF.
  - now left.
Defined.


Lemma far_feature_ignored_witness :
  let near := feature_at SF_LAT SF_LON (PFloat 3) 0 in
  let far := feature_at (SF_LAT + 250 * 180 / (6371 * PI)) SF_LON (PFloat 6) 0 in
  get_earthquake (world_with 0 (feature_collection ([near] ++ far :: [])))
  = get_earthquake (world_with 0 (feature_collection ([near] ++ []))).
Proof.
  intros near far.
  apply (far_feature_ignored
           (world_with 0 (feature_collection ([near] ++ far :: [])))
           (world_with 0 (feature_collection ([near] ++ [])))
           [near] [] far (Finite 250)).
  - reflexivity.
  - reflexivity.
  - apply world_with_features.
  - apply world_with_features.
  - unfold far. rewrite feature_distance_feature_at, north_of_SF; [reflexivity | lra].
  - apply float_leb_finite_false. unfold RADIUS_KM. lra.
Defined.

Lemma nearby_feature_without_time_empties_result_witness :
  let f := PDict [ ("geometry"%string,
                     PDict [ ("coordinates"%string,
                              PList [PFloat SF_LON; PFloat SF_LAT; PInt 10]) ]);
                   ("properties"%string, PDict [ ("mag"%string, PFloat 3) ]) ] in
  exists e,
    get_earthquake
      (world_with 0 (feature_collection [feature_at SF_LAT SF_LON (PFloat 5) 0; f]))
    = (Ok [], [ErrorFetching e]).
Proof.
  cbv zeta.
  eapply (nearby_feature_without_time_empties_result _ _ _ (Finite 0)).
  - apply world_with_features.
  - right. now left.
  - unfold feature_distance.
    cbn [py_getitem_str dict_lookup String.eqb Ascii.eqb Bool.eqb bind
         py_getitem_int nth_error].
    rewrite calculate_distance_floats. now rewrite SF_distance_0.
  - apply float_leb_finite. unfold RADIUS_KM. lra.
  - reflexivity.
  - reflexivity.
Defined.

Lemma mixed_magnitudes_empty_result_witness :
  get_earthquake
    (world_with 0 (feature_collection
                     [feature_at SF_LAT SF_LON (PFloat 3) 0;
                      feature_at SF_LAT SF_LON (PStr "4.5") 0]))
  = (Ok [], [ErrorFetching TypeError]).
Proof.
  apply (mixed_magnitudes_empty_result _
           [feature_at SF_LAT SF_LON (PFloat 3) 0;
            feature_at SF_LAT SF_LON (PStr "4.5") 0]
           [info_at 0 SF_LAT SF_LON (PFloat 3) 0;
            info_at 0 SF_LAT SF_LON (PStr "4.5") 0]
           (info_at 0 SF_LAT SF_LON (PFloat 3) 0)
           (info_at 0 SF_LAT SF_LON (PStr "4.5") 0) (Finite 3) "4.5").
  - apply world_with_features.
  - rewrite for_features_cons.
    rewrite loop_body_feature_at; [| apply SF_within_radius | reflexivity | reflexivity | reflexivity].
    cbn [bind]. rewrite for_features_cons.
    rewrite loop_body_feature_at; [| apply SF_within_radius | reflexivity | reflexivity | reflexivity].
    reflexivity.
  - now left.
  - right. now left.
  - reflexivity.
  - reflexivity.
  - discriminate.
Defined.

Lemma accepted_latitude_inside_query_box_witness :
  exists lo hi,
    In ("minlatitude"%string, ParamNum lo) (params (feed_request (world_raising Timeout)))
    /\ In ("maxlatitude"%string, ParamNum hi) (params (feed_request (world_raising Timeout)))
    /\ lo < SF_LAT < hi.
Proof.
  apply (accepted_latitude_inside_query_box (world_raising Timeout) SF_LAT SF_LON 0).
  - unfold SF_LAT. lra.
  - now rewrite calculate_distance_floats, SF_distance_0.
  - unfold RADIUS_KM. lra.
Defined.

Lemma longitude_box_narrower_than_radius_witness :
  exists d : R,
    calculate_distance (PFloat SF_LAT) (PFloat SF_LON) (PFloat SF_LAT)
                       (PFloat (SF_LON + 2.1)) = Ok (Finite d)
    /\ d <= RADIUS_KM.
Proof.
  apply (proj2 (longitude_box_narrower_than_radius (world_raising Timeout)
                  (SF_LON + 2.1) ltac:(lra))).
Defined.

Lemma calculate_distance_at_least_between_parallels_witness :
  exists d : R,
    calculate_distance (PFloat 10) (PFloat 20) (PFloat 30) (PFloat 40)
    = Ok (Finite d)
    /\ 6371 * (Rabs (30 - 10) * (PI / 180)) <= d.
Proof.
  apply calculate_distance_at_least_between_parallels; lra.
Defined.
